(** * ESP32 MicroPython DHT11 -> AWS IoT publisher: a shallow embedding of
    [main.py] and the properties of its scheduling-and-delivery pipeline.

    Layout:
    - [Json]    the wire format: the dict built by [measure_and_publish], the
                text [json.dumps] writes for it and a reader for that text;
    - [Signal]  the [measure_pending] flag at the granularity of the single
                loads and stores of the main loop and of [timer_callback];
    - [Firmware] the module globals, the world the firmware talks to, and the
                functions of [main.py] in a state-and-exception monad. *)

From Stdlib Require Import ZArith List String Ascii Bool Lia.
From Stdlib Require Import Decimal DecimalZ DecimalPos.
Import ListNotations.
Local Open Scope string_scope.

(* ------------------------------------------------------------------ *)
(** ** Characters used by the wire format *)

Definition dquote : ascii := Ascii.ascii_of_nat 34.
Definition bslash : ascii := Ascii.ascii_of_nat 92.
Definition dq : string := String dquote EmptyString.

(* ------------------------------------------------------------------ *)
(** ** JSON as written by [json.dumps] for the payload dict *)

Module Json.

(** The values that occur in the payload: [str] and [int]. *)
Inductive jvalue : Type :=
| JStr (s : string)
| JInt (z : Z).

(** A Python dict in iteration order. *)
Definition dict := list (string * jvalue).

Definition keys (d : dict) : list string := map fst d.

Fixpoint dict_get (k : string) (d : dict) : option jvalue :=
  match d with
  | [] => None
  | (k', v) :: d' => if String.eqb k k' then Some v else dict_get k d'
  end.

(** [d[k] = v]: replace the value of an existing key in place, else append. *)
Fixpoint dict_set (k : string) (v : jvalue) (d : dict) : dict :=
  match d with
  | [] => [(k, v)]
  | (k', v') :: d' =>
      if String.eqb k k' then (k', v) :: d' else (k', v') :: dict_set k v d'
  end.

(** *** Integers: [str(int)], decimal, a leading minus sign, no padding *)

Fixpoint string_of_uint (u : Decimal.uint) : string :=
  match u with
  | Nil => ""
  | D0 u => String "0" (string_of_uint u)
  | D1 u => String "1" (string_of_uint u)
  | D2 u => String "2" (string_of_uint u)
  | D3 u => String "3" (string_of_uint u)
  | D4 u => String "4" (string_of_uint u)
  | D5 u => String "5" (string_of_uint u)
  | D6 u => String "6" (string_of_uint u)
  | D7 u => String "7" (string_of_uint u)
  | D8 u => String "8" (string_of_uint u)
  | D9 u => String "9" (string_of_uint u)
  end.

Definition string_of_Z (z : Z) : string :=
  match Z.to_int z with
  | Decimal.Pos u => string_of_uint u
  | Decimal.Neg u => String "-" (string_of_uint u)
  end.

(** *** Strings: the escaping of MicroPython's JSON printer
    (quote and backslash get a backslash; bytes from 32 up are copied;
    newline, return and tab get their letter; other control bytes
    are written as a four-digit hexadecimal escape). *)

Definition hex_digit (n : nat) : ascii :=
  match n with
  | 0 => "0" | 1 => "1" | 2 => "2" | 3 => "3" | 4 => "4" | 5 => "5"
  | 6 => "6" | 7 => "7" | 8 => "8" | 9 => "9" | 10 => "a" | 11 => "b"
  | 12 => "c" | 13 => "d" | 14 => "e" | _ => "f"
  end%char.

Definition escape_char (c : ascii) : string :=
  let n := nat_of_ascii c in
  if Ascii.eqb c dquote || Ascii.eqb c bslash then String bslash (String c "")
  else if Nat.leb 32 n then String c ""
  else if Nat.eqb n 10 then String bslash "n"
  else if Nat.eqb n 13 then String bslash "r"
  else if Nat.eqb n 9 then String bslash "t"
  else String bslash
         (String "u" (String "0" (String "0"
            (String (hex_digit (n / 16)) (String (hex_digit (n mod 16)) ""))))).

Fixpoint escape (s : string) : string :=
  match s with
  | EmptyString => ""
  | String c s' => escape_char c ++ escape s'
  end.

Definition json_str (s : string) : string := dq ++ escape s ++ dq.

Definition json_value (v : jvalue) : string :=
  match v with
  | JStr s => json_str s
  | JInt z => string_of_Z z
  end.

Definition json_item (kv : string * jvalue) : string :=
  json_str (fst kv) ++ ": " ++ json_value (snd kv).

Fixpoint json_items (d : dict) : string :=
  match d with
  | [] => ""
  | [kv] => json_item kv
  | kv :: d' => json_item kv ++ ", " ++ json_items d'
  end.

(** [json.dumps(d)] with the default separators. *)
Definition json_dumps (d : dict) : string := "{" ++ json_items d ++ "}".

(** *** Reading the text back ([json.loads] on flat objects of strings
    and integers, white space allowed between tokens). *)

Definition is_ws (c : ascii) : bool :=
  let n := nat_of_ascii c in
  Nat.eqb n 32 || Nat.eqb n 9 || Nat.eqb n 10 || Nat.eqb n 13.

Fixpoint skip_ws (s : string) : string :=
  match s with
  | String c s' => if is_ws c then skip_ws s' else s
  | EmptyString => s
  end.

Definition hex_value (c : ascii) : option nat :=
  let n := nat_of_ascii c in
  if Nat.leb 48 n && Nat.leb n 57 then Some (n - 48)
  else if Nat.leb 97 n && Nat.leb n 102 then Some (n - 87)
  else if Nat.leb 65 n && Nat.leb n 70 then Some (n - 55)
  else None.

(** The character a one-letter escape stands for. *)
Definition unescape (e : ascii) : option ascii :=
  let n := nat_of_ascii e in
  if Ascii.eqb e dquote || Ascii.eqb e bslash || Nat.eqb n 47 then Some e
  else if Nat.eqb n 110 then Some (ascii_of_nat 10)
  else if Nat.eqb n 114 then Some (ascii_of_nat 13)
  else if Nat.eqb n 116 then Some (ascii_of_nat 9)
  else if Nat.eqb n 98 then Some (ascii_of_nat 8)
  else if Nat.eqb n 102 then Some (ascii_of_nat 12)
  else None.

Definition cons_char (c : ascii) (r : option (string * string))
  : option (string * string) :=
  match r with
  | Some (body, rest) => Some (String c body, rest)
  | None => None
  end.

(** The body of a string literal up to its closing quote.  A hexadecimal
    escape is read when it names a single byte (below 128). *)
Fixpoint parse_chars (s : string) : option (string * string) :=
  match s with
  | EmptyString => None
  | String c s' =>
      if Ascii.eqb c dquote then Some ("", s')
      else if Ascii.eqb c bslash then
        match s' with
        | EmptyString => None
        | String e s'' =>
            match unescape e with
            | Some c' => cons_char c' (parse_chars s'')
            | None =>
                if Ascii.eqb e "u" then
                  match s'' with
                  | String h1 (String h2 (String h3 (String h4 r))) =>
                      match hex_value h1, hex_value h2,
                            hex_value h3, hex_value h4 with
                      | Some a, Some b, Some c3, Some d4 =>
                          let code := ((a * 16 + b) * 16 + c3) * 16 + d4 in
                          if Nat.ltb code 128
                          then cons_char (ascii_of_nat code) (parse_chars r)
                          else None
                      | _, _, _, _ => None
                      end
                  | _ => None
                  end
                else None
            end
        end
      else if Nat.ltb (nat_of_ascii c) 32 then None
      else cons_char c (parse_chars s')
  end.

Definition parse_string (s : string) : option (string * string) :=
  match s with
  | String c s' => if Ascii.eqb c dquote then parse_chars s' else None
  | EmptyString => None
  end.

Definition digit_of (c : ascii) : option (Decimal.uint -> Decimal.uint) :=
  match nat_of_ascii c with
  | 48 => Some D0 | 49 => Some D1 | 50 => Some D2 | 51 => Some D3
  | 52 => Some D4 | 53 => Some D5 | 54 => Some D6 | 55 => Some D7
  | 56 => Some D8 | 57 => Some D9 | _ => None
  end.

(** The longest run of decimal digits at the head of [s]. *)
Fixpoint read_uint (s : string) : Decimal.uint * string :=
  match s with
  | EmptyString => (Nil, s)
  | String c s' =>
      match digit_of c with
      | Some d => let (u, rest) := read_uint s' in (d u, rest)
      | None => (Nil, s)
      end
  end.

Definition parse_nat_part (neg : bool) (s : string) : option (Z * string) :=
  match read_uint s with
  | (Nil, _) => None
  | (u, rest) =>
      Some (Z.of_int (if neg then Decimal.Neg u else Decimal.Pos u), rest)
  end.

Definition parse_int (s : string) : option (Z * string) :=
  match s with
  | String c s' =>
      if Ascii.eqb c "-" then parse_nat_part true s'
      else parse_nat_part false s
  | EmptyString => None
  end.

Definition parse_value (s : string) : option (jvalue * string) :=
  match s with
  | String c _ =>
      if Ascii.eqb c dquote then
        match parse_string s with
        | Some (v, rest) => Some (JStr v, rest)
        | None => None
        end
      else
        match parse_int s with
        | Some (z, rest) => Some (JInt z, rest)
        | None => None
        end
  | EmptyString => None
  end.

Definition expect (c : ascii) (s : string) : option string :=
  match s with
  | String c' s' => if Ascii.eqb c c' then Some s' else None
  | EmptyString => None
  end.

(** One [key: value] member, with the white space around its tokens. *)
Definition parse_member (s : string) : option ((string * jvalue) * string) :=
  match parse_string (skip_ws s) with
  | None => None
  | Some (k, s1) =>
      match expect ":" (skip_ws s1) with
      | None => None
      | Some s2 =>
          match parse_value (skip_ws s2) with
          | None => None
          | Some (v, s3) => Some ((k, v), skip_ws s3)
          end
      end
  end.

(** Members separated by commas up to the closing brace; a later member with
    the key of an earlier one overrides its value, as in a Python dict. *)
Fixpoint parse_members (fuel : nat) (acc : dict) (s : string)
  : option (dict * string) :=
  match fuel with
  | O => None
  | S fuel' =>
      match parse_member s with
      | None => None
      | Some ((k, v), rest) =>
          let acc' := dict_set k v acc in
          match rest with
          | String c rest' =>
              if Ascii.eqb c "," then parse_members fuel' acc' rest'
              else if Ascii.eqb c "}" then Some (acc', rest')
              else None
          | EmptyString => None
          end
      end
  end.

Definition json_loads (s : string) : option dict :=
  match expect "{" (skip_ws s) with
  | None => None
  | Some s1 =>
      let body :=
        match skip_ws s1 with
        | String c s2 =>
            if Ascii.eqb c "}" then Some ([], s2)
            else parse_members (String.length s1) [] s1
        | EmptyString => None
        end in
      match body with
      | Some (d, rest) =>
          match skip_ws rest with
          | EmptyString => Some d
          | _ => None
          end
      | None => None
      end
  end.

(** A continuation that cannot be taken for one more digit. *)
Definition no_digit_ahead (s : string) : Prop :=
  match s with
  | String c _ => digit_of c = None
  | EmptyString => True
  end.

(** Storing the items of [d] one after the other into [acc]. *)
Definition set_all (d acc : dict) : dict :=
  fold_left (fun a kv => dict_set (fst kv) (snd kv) a) d acc.

End Json.

(* ------------------------------------------------------------------ *)
(** ** The pending flag, one load or store at a time

    The main loop tests [measure_pending] and, when it is set, clears it:
    a load followed by a store.  [timer_callback] is a single store of
    [True] that can run before, between or after these two. *)

Module Signal.

(** Where the main loop stands in its test-and-clear. *)
Inductive phase : Type :=
| AtTest                    (* about to evaluate [if measure_pending] *)
| AtClear                   (* saw True, about to store False *)
| Taken (pending : bool).   (* past the test-and-clear, with its outcome *)

Record cell : Type := mkCell { flag : bool; pc : phase }.

Inductive action : Type :=
| Irq        (* [timer_callback] runs *)
| Step.      (* the main loop executes its next load or store *)

Definition timer_callback (f : bool) : bool := true.

Definition step (a : action) (c : cell) : cell :=
  match a with
  | Irq => mkCell (timer_callback (flag c)) (pc c)
  | Step =>
      match pc c with
      | AtTest => if flag c then mkCell (flag c) AtClear
                  else mkCell (flag c) (Taken false)
      | AtClear => mkCell false (Taken true)
      | Taken _ => c
      end
  end.

Definition run (sched : list action) (c : cell) : cell :=
  fold_left (fun c a => step a c) sched c.

Definition start (f : bool) : cell := mkCell f AtTest.

(** [n] runs of the callback in a row. *)
Definition sets (n : nat) (f : bool) : bool := Nat.iter n timer_callback f.

(** The operation the design asks for: read and reset in one indivisible
    step, returning what was read and the flag left behind. *)
Definition take_atomic (f : bool) : bool * bool := (f, false).

Definition irqs (sched : list action) : nat :=
  List.length (filter (fun a => match a with Irq => true | Step => false end)
                      sched).

(** What is known about the cell after [n] runs of the callback, in terms
    of an execution in which the take is one indivisible step. *)
Definition lin (f0 : bool) (n : nat) (c : cell) : Prop :=
  match pc c with
  | AtTest => flag c = sets n f0
  | AtClear => flag c = true /\ sets n f0 = true
  | Taken r =>
      exists before after,
        n = (before + after)%nat
        /\ r = fst (take_atomic (sets before f0))
        /\ flag c = sets after (snd (take_atomic (sets before f0)))
  end.

(** Once the flag is set and the take has not yet cleared, the take ends up
    reporting pending work. *)
Definition will_see (c : cell) : Prop :=
  match pc c with
  | AtTest => flag c = true
  | AtClear => True
  | Taken r => r = true
  end.

(** After the take, a set flag stays set. *)
Definition stays_set (c : cell) : Prop :=
  flag c = true /\ exists r, pc c = Taken r.

End Signal.

(* ------------------------------------------------------------------ *)
(** ** The firmware: globals, world, and the functions of [main.py] *)

Module Firmware.
Import Json.
Local Open Scope Z_scope.

(** *** CONFIG *)

Record Config : Type := mkConfig {
  WIFI_SSID : string;
  WIFI_PASS : string;
  AWS_ENDPOINT : string;
  AWS_PORT : Z;
  CLIENT_CERT : string;
  DEVICE_CERT : string;
  DEVICE_KEY : string;
  THING_NAME : string;
  MEASURE_INTERVAL_MS : Z
}.

(** The values the file ships with. *)
Definition source_config : Config :=
  {| WIFI_SSID := "wifi name";
     WIFI_PASS := "wifi password";
     AWS_ENDPOINT := "Your end point url";
     AWS_PORT := 8883;
     CLIENT_CERT := "/AmazonRootCA1.pem";
     DEVICE_CERT := "/certificate.pem.crt";
     DEVICE_KEY := "/private.pem.key";
     THING_NAME := "Your thing name";
     MEASURE_INTERVAL_MS := 5000 |}.

(** ["devices/{}/telemetry".format(THING_NAME)] *)
Definition MQTT_TOPIC (cfg : Config) : string :=
  "devices/" ++ THING_NAME cfg ++ "/telemetry".

(** *** The MQTT client object *)

Record MQTTClient : Type := mkClient {
  client_id : string;
  server : string;
  port : Z;
  keepalive : Z;
  ssl : bool;
  ssl_key : string;
  ssl_cert : string;
  ssl_server_side : bool
}.

(** [ubinascii.hexlify]: two lower-case hexadecimal digits per byte. *)
Fixpoint hexlify (bytes : string) : string :=
  match bytes with
  | EmptyString => ""
  | String b rest =>
      let n := nat_of_ascii b in
      String (hex_digit (n / 16)) (String (hex_digit (n mod 16)) (hexlify rest))
  end.

(** *** What the outside can see the firmware do *)

Inductive Event : Type :=
| EPrint (msg : string)
| ESleep (ms : Z)
| EWlanActive
| EWlanConnect (ssid pass : string)
| ETimerInit (period : Z)
| ETimerDeinit
| ESensorMeasure (ok : bool)
| EMqttConnect (ok : bool)
| EMqttPublish (topic payload : string) (ok : bool)
| EMqttDisconnect (ok : bool)
| EReset.

(** *** Exceptions.  [OSError] and [AttributeError] are caught by
    [except Exception]; [KeyboardInterrupt] is not; [SystemReset] stands for
    [machine.reset()], after which nothing runs; [Diverged] marks a loop of
    the model that ran out of fuel. *)

Inductive Exn : Type :=
| OSError
| AttributeError
| KeyboardInterrupt
| SystemReset
| Diverged.

Definition is_Exception (e : Exn) : bool :=
  match e with
  | OSError | AttributeError => true
  | KeyboardInterrupt | SystemReset | Diverged => false
  end.

(** *** GLOBALS, and the state of the devices around them *)

Record State : Type := mkState {
  measure_pending : bool;
  last_measure_time : Z;
  wifi_connected : bool;
  mqtt_client : option MQTTClient;
  dht_buf : Z * Z;            (* what [dht_sensor] last measured: (temp, hum) *)
  timer : option (Z * Z);     (* [tm]: (armed at, period) in ms, once started *)
  clock_ms : Z;               (* wall clock, milliseconds *)
  calls : nat;                (* blocking calls into drivers made so far *)
  trace : list Event          (* oldest first *)
}.

Definition set_measure_pending (b : bool) (s : State) : State :=
  mkState b (last_measure_time s) (wifi_connected s) (mqtt_client s)
          (dht_buf s) (timer s) (clock_ms s) (calls s) (trace s).
Definition set_last_measure_time (t : Z) (s : State) : State :=
  mkState (measure_pending s) t (wifi_connected s) (mqtt_client s)
          (dht_buf s) (timer s) (clock_ms s) (calls s) (trace s).
Definition set_wifi_connected (b : bool) (s : State) : State :=
  mkState (measure_pending s) (last_measure_time s) b (mqtt_client s)
          (dht_buf s) (timer s) (clock_ms s) (calls s) (trace s).
Definition set_mqtt_client (c : option MQTTClient) (s : State) : State :=
  mkState (measure_pending s) (last_measure_time s) (wifi_connected s) c
          (dht_buf s) (timer s) (clock_ms s) (calls s) (trace s).
Definition set_dht_buf (r : Z * Z) (s : State) : State :=
  mkState (measure_pending s) (last_measure_time s) (wifi_connected s)
          (mqtt_client s) r (timer s) (clock_ms s) (calls s) (trace s).
Definition set_timer (t : option (Z * Z)) (s : State) : State :=
  mkState (measure_pending s) (last_measure_time s) (wifi_connected s)
          (mqtt_client s) (dht_buf s) t (clock_ms s) (calls s) (trace s).
Definition set_clock_ms (t : Z) (s : State) : State :=
  mkState (measure_pending s) (last_measure_time s) (wifi_connected s)
          (mqtt_client s) (dht_buf s) (timer s) t (calls s) (trace s).
Definition bump_calls (s : State) : State :=
  mkState (measure_pending s) (last_measure_time s) (wifi_connected s)
          (mqtt_client s) (dht_buf s) (timer s) (clock_ms s) (S (calls s))
          (trace s).
Definition log (e : Event) (s : State) : State :=
  mkState (measure_pending s) (last_measure_time s) (wifi_connected s)
          (mqtt_client s) (dht_buf s) (timer s) (clock_ms s) (calls s)
          (trace s ++ [e])%list.

(** The module as loaded, before [main] runs, at clock time [t0]. *)
Definition initial (t0 : Z) : State :=
  mkState false 0 false None (0, 0) None t0 O [].

(** *** The world: what the drivers answer.  Blocking driver calls are
    numbered in the order they are made; the answer to call [n] and the time
    it takes are given per number.  The link state is given per clock time. *)

Record Env : Type := mkEnv {
  unique_id : string;               (* [machine.unique_id()] *)
  link_up : Z -> bool;              (* [wlan.isconnected()] at a clock time *)
  sensor : nat -> option (Z * Z);   (* [dht_sensor.measure()]: reading, or raises *)
  connect_ok : nat -> bool;         (* [mqtt_client.connect()] returns, or raises *)
  publish_ok : nat -> bool;         (* [mqtt_client.publish(..)] returns, or raises *)
  disconnect_ok : nat -> bool;      (* [mqtt_client.disconnect()] returns, or raises *)
  cost : nat -> N;                  (* milliseconds call [n] blocks for *)
  ctrl_c : nat -> bool              (* the user interrupts before round [i] *)
}.

(** *** TIMER CALLBACK *)

Definition timer_callback (s : State) : State := set_measure_pending true s.

(** Number of periods elapsed at time [t] for a timer [(armed at, period)]. *)
Definition ticks_by (tm : Z * Z) (t : Z) : Z := (t - fst tm) / snd tm.

(** Did the timer fire in the window from [t] (excluded) to [t'] (included)? *)
Definition fired (tm : option (Z * Z)) (t t' : Z) : bool :=
  match tm with
  | Some p => ticks_by p t <? ticks_by p t'
  | None => false
  end.

(** Time passes for [d] ms; the callback runs if a period boundary is crossed. *)
Definition advance (d : Z) (s : State) : State :=
  let s' := set_clock_ms (clock_ms s + d) s in
  if fired (timer s) (clock_ms s) (clock_ms s + d) then timer_callback s' else s'.

(** *** State and exceptions *)

Inductive Res (A : Type) : Type :=
| Ok (a : A) (s : State)
| Raise (e : Exn) (s : State).
Arguments Ok {A} a s.
Arguments Raise {A} e s.

Definition M (A : Type) : Type := State -> Res A.

Definition ret {A} (a : A) : M A := fun s => Ok a s.

Definition bind {A B} (m : M A) (k : A -> M B) : M B :=
  fun s => match m s with
           | Ok a s' => k a s'
           | Raise e s' => Raise e s'
           end.

Definition raise {A} (e : Exn) : M A := fun s => Raise e s.

(** [try: m  except Exception as e: h e] *)
Definition try_except {A} (m : M A) (h : Exn -> M A) : M A :=
  fun s => match m s with
           | Ok a s' => Ok a s'
           | Raise e s' => if is_Exception e then h e s' else Raise e s'
           end.

Definition get {A} (f : State -> A) : M A := fun s => Ok (f s) s.
Definition modify (f : State -> State) : M unit := fun s => Ok tt (f s).

Definition final_state {A} (r : Res A) : State :=
  match r with Ok _ s | Raise _ s => s end.

Declare Scope fw_scope.
Delimit Scope fw_scope with fw.
Notation "x <- m ;; k" := (bind m (fun x => k))
  (at level 61, m at next level, right associativity) : fw_scope.
Notation "m ;; k" := (bind m (fun _ => k))
  (at level 61, right associativity) : fw_scope.
Local Open Scope fw_scope.

Section Program.

Variable cfg : Config.
Variable env : Env.

(** *** Primitives *)

Definition print (msg : string) : M unit := modify (log (EPrint msg)).

(** [time.sleep] and [time.sleep_ms], in milliseconds. *)
Definition sleep_ms (d : Z) : M unit :=
  modify (fun s => advance d (log (ESleep d) s)).

(** [time.time()]: whole seconds. *)
Definition time_time : M Z := get (fun s => clock_ms s / 1000).

(** A blocking call into a driver: it takes its time, then returns a value
    or raises [OSError]. *)
Definition driver_call {A} (answer : nat -> option A) (ev : bool -> Event)
  : M A :=
  fun s =>
    let n := calls s in
    let s1 := advance (Z.of_N (cost env n)) (bump_calls s) in
    match answer n with
    | Some a => Ok a (log (ev true) s1)
    | None => Raise OSError (log (ev false) s1)
    end.

Definition unit_answer (ok : nat -> bool) (n : nat) : option unit :=
  if ok n then Some tt else None.

(** A method call on the global [mqtt_client]; on [None] the attribute
    lookup raises. *)
Definition client_call (ok : nat -> bool) (ev : bool -> Event) : M unit :=
  c <- get mqtt_client ;;
  match c with
  | None => raise AttributeError
  | Some _ => driver_call (unit_answer ok) ev
  end.

Definition wlan_isconnected : M bool := get (fun s => link_up env (clock_ms s)).

(** *** UTILITIES *)

Definition wifi_timeout : Z := 15.

(** The [while not wlan.isconnected()] loop; [true] when the loop is left
    with the link up, [false] when the function returned [False] from
    inside it. *)
Fixpoint wifi_wait (fuel : nat) (start : Z) : M bool :=
  match fuel with
  | O => raise Diverged
  | S fuel' =>
      up <- wlan_isconnected ;;
      if up then ret true
      else
        now <- time_time ;;
        if now - start >? wifi_timeout then
          print "WiFi connect timed out" ;;
          modify (set_wifi_connected false) ;;
          ret false
        else
          sleep_ms 500 ;;
          wifi_wait fuel' start
  end.

Definition wifi_fuel : nat := 40.

Definition connect_wifi : M bool :=
  up <- wlan_isconnected ;;
  reached <- (if negb up then
                print "Connecting to WiFi..." ;;
                modify (log EWlanActive) ;;
                modify (log (EWlanConnect (WIFI_SSID cfg) (WIFI_PASS cfg))) ;;
                start <- time_time ;;
                wifi_wait wifi_fuel start
              else ret true) ;;
  if reached then
    modify (set_wifi_connected true) ;;
    print "WiFi connected, IP:" ;;
    ret true
  else ret false.

Definition make_mqtt_client : MQTTClient :=
  {| client_id := hexlify (unique_id env);
     server := AWS_ENDPOINT cfg;
     port := AWS_PORT cfg;
     keepalive := 60;
     ssl := true;
     ssl_key := DEVICE_KEY cfg;
     ssl_cert := DEVICE_CERT cfg;
     ssl_server_side := false |}.

Definition mqtt_connect : M bool :=
  c <- get mqtt_client ;;
  (match c with
   | None => modify (set_mqtt_client (Some make_mqtt_client))
   | Some _ => ret tt
   end) ;;
  try_except
    (print "Connecting to AWS IoT MQTT..." ;;
     client_call (connect_ok env) EMqttConnect ;;
     print "MQTT connected" ;;
     ret true)
    (fun _ =>
     print "MQTT connection failed:" ;;
     modify (set_mqtt_client None) ;;
     ret false).

Definition mqtt_publish (payload : string) : M bool :=
  c <- get mqtt_client ;;
  go <- (match c with
         | None => connected <- mqtt_connect ;; ret connected
         | Some _ => ret true
         end) ;;
  if negb go then ret false
  else
    try_except
      (client_call (publish_ok env) (EMqttPublish (MQTT_TOPIC cfg) payload) ;;
       ret true)
      (fun _ =>
       print "Publish failed, will try reconnect:" ;;
       try_except (client_call (disconnect_ok env) EMqttDisconnect)
                  (fun _ => ret tt) ;;
       modify (set_mqtt_client None) ;;
       ret false).

(** *** SENSOR *)

Definition dht_measure : M unit :=
  r <- driver_call (sensor env) ESensorMeasure ;;
  modify (set_dht_buf r).

Definition dht_temperature : M Z := get (fun s => fst (dht_buf s)).
Definition dht_humidity : M Z := get (fun s => snd (dht_buf s)).

(** The dict literal of [measure_and_publish]. *)
Definition make_payload (thing : string) (timestamp temp hum : Z) : dict :=
  dict_set "humidity_pct" (JInt hum)
    (dict_set "temperature_C" (JInt temp)
       (dict_set "timestamp" (JInt timestamp)
          (dict_set "thing" (JStr thing) []))).

Definition measure_and_publish : M bool :=
  reading <- try_except
               (dht_measure ;;
                temp <- dht_temperature ;;
                hum <- dht_humidity ;;
                ret (Some (temp, hum)))
               (fun _ => print "Sensor read failed:" ;; ret None) ;;
  match reading with
  | None => ret false
  | Some (temp, hum) =>
      now <- time_time ;;
      let payload := make_payload (THING_NAME cfg) now temp hum in
      let payload_json := json_dumps payload in
      print ("Publishing: " ++ payload_json) ;;
      sent <- mqtt_publish payload_json ;;
      if sent then print "Published OK" ;; ret true
      else print "Publish failed" ;; ret false
  end.

(** *** MAIN *)

Definition timer_init : M unit :=
  modify (fun s =>
            log (ETimerInit (MEASURE_INTERVAL_MS cfg))
                (set_timer (Some (clock_ms s, MEASURE_INTERVAL_MS cfg)) s)).

Definition timer_deinit : M unit :=
  modify (fun s => log ETimerDeinit (set_timer None s)).

Definition machine_reset {A} : M A :=
  modify (log EReset) ;; raise SystemReset.

(** What the main loop does when it finds the flag set. *)
Definition service : M unit :=
  modify (set_measure_pending false) ;;
  now <- time_time ;;
  modify (set_last_measure_time now) ;;
  success <- measure_and_publish ;;
  if negb success then
    print "Attempting reconnect in 5s..." ;;
    sleep_ms 5000 ;;
    _ <- mqtt_connect ;;
    ret tt
  else ret tt.

(** One round of [while True]. *)
Definition loop_iteration : M unit :=
  pending <- get measure_pending ;;
  (if pending then service else ret tt) ;;
  sleep_ms 100.

(** [n] rounds of the loop, numbered from [i]; [Ctrl-C] is looked for at
    the top of each round. *)
Fixpoint main_loop (n i : nat) : M unit :=
  match n with
  | O => ret tt
  | S n' =>
      (if ctrl_c env i then raise KeyboardInterrupt else ret tt) ;;
      loop_iteration ;;
      main_loop n' (S i)
  end.

(** The [finally] block. *)
Definition shutdown : M unit :=
  try_except timer_deinit (fun _ => ret tt) ;;
  try_except
    (c <- get mqtt_client ;;
     match c with
     | Some _ => client_call (disconnect_ok env) EMqttDisconnect
     | None => ret tt
     end)
    (fun _ => ret tt).

Inductive Outcome : Type :=
| StillRunning     (* the loop is still going after the rounds observed *)
| Stopped.         (* left through [except KeyboardInterrupt] *)

(** [main], observed for [n] rounds of its loop.  When the rounds are used
    up the loop has not been left, so neither the handler nor the [finally]
    block has run. *)
Definition main (n : nat) : M Outcome :=
  linked <- connect_wifi ;;
  (if negb linked then
     print "Cannot continue without WiFi. Rebooting in 10s." ;;
     sleep_ms 10000 ;;
     machine_reset
   else ret tt) ;;
  timer_init ;;
  print ("Timer started, measuring every "
         ++ string_of_Z (MEASURE_INTERVAL_MS cfg) ++ " ms") ;;
  _ <- mqtt_connect ;;
  fun s =>
    match main_loop n 0%nat s with
    | Ok _ s' => Ok StillRunning s'
    | Raise KeyboardInterrupt s' =>
        (print "Stopped by user" ;; shutdown ;; ret Stopped) s'
    | Raise e s' => (shutdown ;; raise e) s'
    end.

End Program.

(** *** Reading a trace *)

Definition is_handshake (e : Event) : bool :=
  match e with EMqttConnect _ => true | _ => false end.

Definition is_send (e : Event) : bool :=
  match e with EMqttPublish _ _ _ => true | _ => false end.

Definition is_reset (e : Event) : bool :=
  match e with EReset => true | _ => false end.

Definition handshakes (tr : list Event) : nat :=
  List.length (filter is_handshake tr).

Definition sends (tr : list Event) : nat :=
  List.length (filter is_send tr).

(** *** The state [mqtt_connect] ends in *)

Definition client_or_new (cfg : Config) (env : Env) (s : State) : MQTTClient :=
  match mqtt_client s with
  | Some c => c
  | None => make_mqtt_client cfg env
  end.

(** The line [mqtt_connect] prints once the handshake has returned or raised. *)
Definition connect_verdict (ok : bool) : string :=
  if ok then "MQTT connected" else "MQTT connection failed:".

(** Up to the return of [mqtt_client.connect()], whatever its outcome. *)
Definition dialled (cfg : Config) (env : Env) (s : State) : State :=
  log (EMqttConnect (connect_ok env (calls s)))
    (advance (Z.of_N (cost env (calls s)))
       (bump_calls
          (log (EPrint "Connecting to AWS IoT MQTT...")
             (set_mqtt_client (Some (client_or_new cfg env s)) s)))).

Definition after_connect (cfg : Config) (env : Env) (s : State) : State :=
  let s1 := log (EPrint (connect_verdict (connect_ok env (calls s))))
                (dialled cfg env s) in
  if connect_ok env (calls s) then s1 else set_mqtt_client None s1.

(** *** The state [mqtt_publish] ends in *)

(** From the call of [mqtt_client.publish] on, with a client in place. *)
Definition after_send (cfg : Config) (env : Env) (payload : string)
  (u : State) : State :=
  let n := calls u in
  let u1 := log (EMqttPublish (MQTT_TOPIC cfg) payload (publish_ok env n))
                (advance (Z.of_N (cost env n)) (bump_calls u)) in
  if publish_ok env n then u1
  else
    set_mqtt_client None
      (log (EMqttDisconnect (disconnect_ok env (S n)))
         (advance (Z.of_N (cost env (S n)))
            (bump_calls
               (log (EPrint "Publish failed, will try reconnect:") u1)))).

Definition after_publish (cfg : Config) (env : Env) (payload : string)
  (s : State) : State :=
  match mqtt_client s with
  | Some _ => after_send cfg env payload s
  | None =>
      if connect_ok env (calls s)
      then after_send cfg env payload (after_connect cfg env s)
      else after_connect cfg env s
  end.

Definition publish_result (env : Env) (s : State) : bool :=
  match mqtt_client s with
  | Some _ => publish_ok env (calls s)
  | None => connect_ok env (calls s) && publish_ok env (S (calls s))
  end.

(** *** The states [measure_and_publish] and the loop end in *)

(** Up to the return of [dht_sensor.measure()], whatever its outcome. *)
Definition measured (env : Env) (s : State) : State :=
  let ok := match sensor env (calls s) with Some _ => true | None => false end in
  let s1 := log (ESensorMeasure ok)
                (advance (Z.of_N (cost env (calls s))) (bump_calls s)) in
  match sensor env (calls s) with
  | Some r => set_dht_buf r s1
  | None => s1
  end.

(** The text handed to [mqtt_publish] for a reading taken in state [s]. *)
Definition payload_json (cfg : Config) (s : State) (r : Z * Z) : string :=
  json_dumps (make_payload (THING_NAME cfg) (clock_ms s / 1000) (fst r) (snd r)).

Definition announced (cfg : Config) (env : Env) (s : State) (r : Z * Z)
  : State :=
  log (EPrint ("Publishing: " ++ payload_json cfg (measured env s) r))
      (measured env s).

Definition cycle_result (cfg : Config) (env : Env) (s : State) : bool :=
  match sensor env (calls s) with
  | None => false
  | Some r => publish_result env (announced cfg env s r)
  end.

Definition after_cycle (cfg : Config) (env : Env) (s : State) : State :=
  match sensor env (calls s) with
  | None => log (EPrint "Sensor read failed:") (measured env s)
  | Some r =>
      let s3 := announced cfg env s r in
      log (EPrint (if publish_result env s3
                   then "Published OK" else "Publish failed"))
          (after_publish cfg env (payload_json cfg (measured env s) r) s3)
  end.

(** The state in which the work of a round starts: flag cleared, time noted. *)
Definition work_start (s : State) : State :=
  set_last_measure_time (clock_ms s / 1000) (set_measure_pending false s).

(** The backoff of [main]: message, five seconds, one [mqtt_connect]. *)
Definition after_backoff (cfg : Config) (env : Env) (c : State) : State :=
  after_connect cfg env
    (advance 5000
       (log (ESleep 5000) (log (EPrint "Attempting reconnect in 5s...") c))).

Definition after_service (cfg : Config) (env : Env) (s : State) : State :=
  let c := after_cycle cfg env (work_start s) in
  if cycle_result cfg env (work_start s) then c else after_backoff cfg env c.

Definition after_iteration (cfg : Config) (env : Env) (s : State) : State :=
  advance 100
    (log (ESleep 100)
       (if measure_pending s then after_service cfg env s else s)).

(** *** What no step of the loop disturbs *)

Definition resets (tr : list Event) : nat :=
  List.length (filter is_reset tr).

(** From [s] to [s'] time did not run backwards, the timer was left alone,
    the flag was not cleared (it is set exactly if it was set or the timer
    fired in between), the device was not reset, and the trace only grew. *)
Definition steady (s s' : State) : Prop :=
  timer s' = timer s
  /\ clock_ms s <= clock_ms s'
  /\ measure_pending s'
     = (measure_pending s || fired (timer s) (clock_ms s) (clock_ms s'))
  /\ resets (trace s') = resets (trace s)
  /\ exists tail, trace s' = (trace s ++ tail)%list.

(** *** Claims of the design that are checked against the code *)

(** "[publish] while not Connected fails at once, without any I/O." *)
Definition publish_refused (cfg : Config) (env : Env) (payload : string)
  (s : State) : Prop :=
  exists s', mqtt_publish cfg env payload s = Ok false s'
             /\ handshakes (trace s') = handshakes (trace s)
             /\ sends (trace s') = sends (trace s).

(** "[connect] while Connected returns success without re-negotiating." *)
Definition connect_is_noop (cfg : Config) (env : Env) (s : State) : Prop :=
  exists s', mqtt_connect cfg env s = Ok true s'
             /\ handshakes (trace s') = handshakes (trace s)
             /\ mqtt_client s' = mqtt_client s.

(** The payload text of scenario E of the design, character for
    character: no blanks, keys in the order thing, timestamp, temperature_C,
    humidity_pct. *)
Definition scenario_E_text : string :=
  "{" ++ dq ++ "thing" ++ dq ++ ":" ++ dq ++ "T1" ++ dq ++ ","
      ++ dq ++ "timestamp" ++ dq ++ ":1700000000,"
      ++ dq ++ "temperature_C" ++ dq ++ ":24,"
      ++ dq ++ "humidity_pct" ++ dq ++ ":55}".

(** *** Example worlds and states *)

Definition example_config : Config :=
  mkConfig "net" "secret" "broker.example" 8883
           "/AmazonRootCA1.pem" "/certificate.pem.crt" "/private.pem.key"
           "T1" 5000.

(** Everything works; the sensor reads 24 degrees and 55 percent. *)
Definition calm_world : Env :=
  mkEnv "ab" (fun _ => true) (fun _ => Some (24, 55)) (fun _ => true)
        (fun _ => true) (fun _ => true) (fun _ => 0%N) (fun _ => false).

(** The broker refuses every handshake. *)
Definition deaf_broker : Env :=
  mkEnv "ab" (fun _ => true) (fun _ => Some (24, 55)) (fun _ => false)
        (fun _ => true) (fun _ => true) (fun _ => 0%N) (fun _ => false).

(** Handshakes succeed, every send fails on the transport. *)
Definition broken_pipe : Env :=
  mkEnv "ab" (fun _ => true) (fun _ => Some (24, 55)) (fun _ => true)
        (fun _ => false) (fun _ => true) (fun _ => 0%N) (fun _ => false).

(** Every sensor read fails its checksum. *)
Definition dead_sensor : Env :=
  mkEnv "ab" (fun _ => true) (fun _ => None) (fun _ => true)
        (fun _ => true) (fun _ => true) (fun _ => 0%N) (fun _ => false).

(** The access point never answers. *)
Definition no_link : Env :=
  mkEnv "ab" (fun _ => false) (fun _ => Some (24, 55)) (fun _ => true)
        (fun _ => true) (fun _ => true) (fun _ => 0%N) (fun _ => false).

(** Running, session up, timer armed at [t0], a tick pending, at [t0+5000]. *)
Definition online (t0 : Z) : State :=
  mkState true 0 true (Some (make_mqtt_client example_config calm_world))
          (0, 0) (Some (t0, 5000)) (t0 + 5000) 1 [].

(** The same with no session. *)
Definition offline (t0 : Z) : State := set_mqtt_client None (online t0).

(** *** The link timeout, as the design words it *)

(** "A link that does not come up within 15 seconds leads to the
    restart": the link being down from the call of [main] until 15 seconds
    later is enough for [main] to reset the device. *)
Definition restart_on_15s_outage (cfg : Config) (env : Env) (n : nat)
  (s0 : State) : Prop :=
  (forall t, clock_ms s0 <= t <= clock_ms s0 + 15000 -> link_up env t = false)
  -> exists s', main cfg env n s0 = Raise SystemReset s'.

(** The access point answers just after 15 seconds. *)
Definition late_link : Env :=
  mkEnv "ab" (fun t => 15000 <? t) (fun _ => Some (24, 55)) (fun _ => true)
        (fun _ => true) (fun _ => true) (fun _ => 0%N) (fun _ => false).

(** The clock time of poll number [j] of a [connect_wifi] called in [s0]. *)
Definition poll_time (s0 : State) (j : nat) : Z :=
  clock_ms s0 + 500 * Z.of_nat j.

(** Whole seconds elapsed at time [t] since [connect_wifi] was called in
    [s0], as [time.time() - start] computes them. *)
Definition seconds_waited (s0 : State) (t : Z) : Z :=
  t / 1000 - clock_ms s0 / 1000.

(** *** Further readings of a trace and of a client id *)

Definition is_measure (e : Event) : bool :=
  match e with ESensorMeasure _ => true | _ => false end.

(** A send that the transport accepted. *)
Definition is_delivery (e : Event) : bool :=
  match e with EMqttPublish _ _ true => true | _ => false end.

Definition is_poll_sleep (e : Event) : bool :=
  match e with ESleep ms => ms =? 100 | _ => false end.

Definition measures (tr : list Event) : nat :=
  List.length (filter is_measure tr).

Definition deliveries (tr : list Event) : nat :=
  List.length (filter is_delivery tr).

Definition is_hex_char (c : ascii) : bool :=
  let n := nat_of_ascii c in
  (Nat.leb 48 n && Nat.leb n 57) || (Nat.leb 97 n && Nat.leb n 102).

Fixpoint all_hex (s : string) : bool :=
  match s with
  | EmptyString => true
  | String c s' => is_hex_char c && all_hex s'
  end.

(** The byte two hexadecimal digits stand for. *)
Definition byte_of_hex (hi lo : ascii) : option ascii :=
  match hex_value hi, hex_value lo with
  | Some a, Some b => Some (ascii_of_nat (a * 16 + b))
  | _, _ => None
  end.

(** Reading a hexadecimal text back into bytes. *)
Fixpoint unhexlify (s : string) : option string :=
  match s with
  | EmptyString => Some ""
  | String hi (String lo rest) =>
      match byte_of_hex hi lo, unhexlify rest with
      | Some b, Some bytes => Some (String b bytes)
      | _, _ => None
      end
  | String _ EmptyString => None
  end.

(** The number of timer periods elapsed in state [s] (0 with no timer). *)
Definition ticks_so_far (s : State) : Z :=
  match timer s with
  | Some p => ticks_by p (clock_ms s)
  | None => 0
  end.

(** Sensor reads made so far, plus one if a tick is waiting to be served. *)
Definition reads_and_pending (s : State) : Z :=
  Z.of_nat (measures (trace s)) + (if measure_pending s then 1 else 0).

(** *** The states at the two ends of the loop *)

(** The state in which [main] enters its loop, when [connect_wifi] returned
    [True] in state [s1]: timer armed, start message printed, one connect
    attempt made. *)
Definition loop_entry (cfg : Config) (env : Env) (s1 : State) : State :=
  after_connect cfg env
    (log (EPrint ("Timer started, measuring every "
                  ++ string_of_Z (MEASURE_INTERVAL_MS cfg) ++ " ms"))
       (log (ETimerInit (MEASURE_INTERVAL_MS cfg))
          (set_timer (Some (clock_ms s1, MEASURE_INTERVAL_MS cfg)) s1))).

(** The state the [finally] block ends in. *)
Definition after_shutdown (env : Env) (s : State) : State :=
  let s1 := log ETimerDeinit (set_timer None s) in
  match mqtt_client s with
  | Some _ =>
      log (EMqttDisconnect (disconnect_ok env (calls s)))
          (advance (Z.of_N (cost env (calls s))) (bump_calls s1))
  | None => s1
  end.

End Firmware.

(* ================================================================== *)
(** * Properties *)

(* ------------------------------------------------------------------ *)
(** ** The wire format reads back what was written *)

Module JsonFacts.
Import Json.

Lemma append_assoc (a b c : string) : (a ++ b) ++ c = a ++ (b ++ c).
Proof. induction a as [|x a IH]; simpl; [reflexivity | now rewrite IH]. Qed.

Lemma length_append (a b : string) :
  String.length (a ++ b) = (String.length a + String.length b)%nat.
Proof. induction a as [|x a IH]; simpl; [reflexivity | now rewrite IH]. Qed.

(** Each byte is read back from its escaped form: all 256 cases. *)
Lemma parse_chars_escape_char (c : ascii) (t : string) :
  parse_chars (escape_char c ++ t) = cons_char c (parse_chars t).
Proof. destruct c as [[] [] [] [] [] [] [] []]; reflexivity. Qed.

Lemma parse_chars_escape (s rest : string) :
  parse_chars (escape s ++ String dquote rest) = Some (s, rest).
Proof.
  induction s as [|c s IH]; simpl.
  - reflexivity.
  - rewrite append_assoc, parse_chars_escape_char, IH. reflexivity.
Qed.

Lemma parse_string_json_str (s rest : string) :
  parse_string (json_str s ++ rest) = Some (s, rest).
Proof.
  unfold json_str. rewrite !append_assoc. simpl.
  apply parse_chars_escape.
Qed.

Lemma read_uint_string_of_uint (u : Decimal.uint) (rest : string) :
  no_digit_ahead rest -> read_uint (string_of_uint u ++ rest) = (u, rest).
Proof.
  intros Hrest.
  induction u; simpl; try (rewrite IHu; reflexivity).
  destruct rest as [|c r]; simpl in *; [reflexivity | now rewrite Hrest].
Qed.

Lemma parse_nat_part_uint (neg : bool) (u : Decimal.uint) (rest : string) :
  u <> Nil -> no_digit_ahead rest ->
  parse_nat_part neg (string_of_uint u ++ rest)
  = Some (Z.of_int (if neg then Decimal.Neg u else Decimal.Pos u), rest).
Proof.
  intros Hu Hrest. unfold parse_nat_part.
  rewrite read_uint_string_of_uint by assumption.
  destruct u; congruence.
Qed.

Lemma to_int_nonnil (z : Z) :
  match Z.to_int z with Decimal.Pos u | Decimal.Neg u => u <> Nil end.
Proof.
  destruct z; simpl; try apply DecimalPos.Unsigned.to_uint_nonnil.
  discriminate.
Qed.

Lemma parse_int_string_of_Z (z : Z) (rest : string) :
  no_digit_ahead rest -> parse_int (string_of_Z z ++ rest) = Some (z, rest).
Proof.
  intros Hrest. unfold string_of_Z.
  pose proof (to_int_nonnil z) as Hnn.
  pose proof (DecimalZ.of_to z) as Hz.
  destruct (Z.to_int z) as [u|u].
  - pose proof (parse_nat_part_uint false u rest Hnn Hrest) as P.
    cbv iota in P. rewrite Hz in P.
    destruct u; try congruence; exact P.
  - pose proof (parse_nat_part_uint true u rest Hnn Hrest) as P.
    cbv iota in P. rewrite Hz in P. exact P.
Qed.

(** A number starts with a character that is no blank, brace, quote
    or sign. *)
Lemma uint_head (u : Decimal.uint) (rest : string) :
  u <> Nil ->
  exists c t, string_of_uint u ++ rest = String c t
              /\ is_ws c = false /\ Ascii.eqb c "}" = false
              /\ Ascii.eqb c dquote = false /\ Ascii.eqb c "-" = false.
Proof.
  intros Hu. destruct u; try congruence; simpl; eexists _, _;
    (split; [reflexivity | repeat split]).
Qed.

Lemma parse_value_json_value (v : jvalue) (rest : string) :
  no_digit_ahead rest ->
  parse_value (json_value v ++ rest) = Some (v, rest).
Proof.
  intros Hrest. destruct v as [s|z]; simpl json_value.
  - pose proof (parse_string_json_str s rest) as P.
    unfold json_str in *. rewrite !append_assoc in *. simpl in *.
    unfold parse_value. simpl. rewrite P. reflexivity.
  - pose proof (parse_int_string_of_Z z rest Hrest) as P.
    unfold string_of_Z in *. pose proof (to_int_nonnil z) as Hnn.
    destruct (Z.to_int z) as [u|u].
    + destruct (uint_head u rest Hnn) as (c & t & E & _ & _ & Hq & _).
      rewrite E in *. unfold parse_value. rewrite Hq, P. reflexivity.
    + change (String "-" (string_of_uint u) ++ rest)
        with (String "-" (string_of_uint u ++ rest)) in *.
      unfold parse_value.
      change (Ascii.eqb "-" dquote) with false. cbv iota.
      rewrite P. reflexivity.
Qed.

Lemma skip_ws_json_value (v : jvalue) (rest : string) :
  skip_ws (json_value v ++ rest) = json_value v ++ rest.
Proof.
  destruct v as [s|z]; simpl json_value.
  - reflexivity.
  - unfold string_of_Z. pose proof (to_int_nonnil z) as Hnn.
    destruct (Z.to_int z) as [u|u].
    + destruct (uint_head u rest Hnn) as (c & t & E & Hw & _).
      rewrite E. simpl. now rewrite Hw.
    + reflexivity.
Qed.

Lemma parse_member_json_item (kv : string * jvalue) (rest : string) :
  no_digit_ahead rest ->
  parse_member (json_item kv ++ rest) = Some (kv, skip_ws rest).
Proof.
  intros Hrest. destruct kv as [k v]. unfold parse_member, json_item.
  simpl fst; simpl snd.
  rewrite !append_assoc.
  replace (skip_ws (json_str k ++ ": " ++ json_value v ++ rest))
    with (json_str k ++ ": " ++ json_value v ++ rest) by reflexivity.
  rewrite parse_string_json_str.
  simpl. rewrite skip_ws_json_value, parse_value_json_value by assumption.
  reflexivity.
Qed.

Lemma parse_members_S (fuel : nat) (acc : dict) (s : string) :
  parse_members (S fuel) acc s =
  match parse_member s with
  | None => None
  | Some ((k, v), rest) =>
      match rest with
      | String c rest' =>
          if Ascii.eqb c "," then parse_members fuel (dict_set k v acc) rest'
          else if Ascii.eqb c "}" then Some (dict_set k v acc, rest')
          else None
      | EmptyString => None
      end
  end.
Proof. reflexivity. Qed.

Lemma parse_member_skip_space (t : string) :
  parse_member (String " " t) = parse_member t.
Proof. reflexivity. Qed.

Lemma parse_members_skip_space (fuel : nat) (acc : dict) (t : string) :
  parse_members fuel acc (String " " t) = parse_members fuel acc t.
Proof.
  destruct fuel; [reflexivity|].
  now rewrite !parse_members_S, parse_member_skip_space.
Qed.

Lemma parse_members_json_items (d : dict) :
  d <> [] ->
  forall fuel acc rest,
    (List.length d <= fuel)%nat ->
    parse_members fuel acc (json_items d ++ String "}" rest)
    = Some (set_all d acc, rest).
Proof.
  induction d as [|kv d IH]; [congruence|].
  intros _ fuel acc rest Hfuel.
  destruct fuel as [|fuel]; [simpl in Hfuel; lia|].
  rewrite parse_members_S.
  destruct d as [|kv' d'].
  - change (json_items [kv]) with (json_item kv).
    rewrite parse_member_json_item by exact eq_refl.
    destruct kv as [k v]. reflexivity.
  - change (json_items (kv :: kv' :: d'))
      with (json_item kv ++ ", " ++ json_items (kv' :: d')).
    rewrite !append_assoc.
    rewrite parse_member_json_item by exact eq_refl.
    destruct kv as [k v].
    change (skip_ws (", " ++ json_items (kv' :: d') ++ String "}" rest))
      with (String "," (String " " (json_items (kv' :: d') ++ String "}" rest))).
    change (Ascii.eqb "," ",") with true. cbv iota.
    rewrite parse_members_skip_space.
    rewrite IH; [reflexivity | discriminate | simpl in *; lia].
Qed.

Lemma dict_set_fresh (k : string) (v : jvalue) (acc : dict) :
  ~ In k (keys acc) -> dict_set k v acc = (acc ++ [(k, v)])%list.
Proof.
  induction acc as [|[k' v'] acc IH]; simpl; intros Hk; [reflexivity|].
  destruct (String.eqb_spec k k') as [->|_]; [tauto|].
  rewrite IH; tauto.
Qed.

Lemma set_all_fresh (d acc : dict) :
  NoDup (keys (acc ++ d)%list) -> set_all d acc = (acc ++ d)%list.
Proof.
  revert acc. induction d as [|[k v] d IH]; intros acc Hnd; simpl.
  - now rewrite app_nil_r.
  - unfold keys in Hnd. rewrite map_app in Hnd. simpl in Hnd.
    rewrite dict_set_fresh.
    + unfold set_all in IH. rewrite IH.
      * now rewrite <- app_assoc.
      * unfold keys. rewrite <- app_assoc, map_app. exact Hnd.
    + apply NoDup_remove_2 in Hnd. intros Hin. apply Hnd.
      apply in_or_app. now left.
Qed.

Lemma json_items_head (kv : string * jvalue) (d : dict) :
  exists t, json_items (kv :: d) = String dquote t.
Proof.
  destruct d; simpl; unfold json_item, json_str; simpl; eexists; reflexivity.
Qed.

Lemma json_items_length (d : dict) (t : string) :
  (List.length d <= String.length (json_items d ++ t))%nat.
Proof.
  induction d as [|kv d IH]; [simpl; lia|].
  destruct d as [|kv' d'].
  - destruct (json_items_head kv []) as [u E]. rewrite E. simpl. lia.
  - change (json_items (kv :: kv' :: d'))
      with (json_item kv ++ ", " ++ json_items (kv' :: d')).
    rewrite !append_assoc, length_append.
    change (", " ++ json_items (kv' :: d') ++ t)
      with (String "," (String " " (json_items (kv' :: d') ++ t))).
    cbn [String.length].
    set (n := String.length (json_items (kv' :: d') ++ t)) in *.
    simpl List.length in *. lia.
Qed.

(** Reading back what [json_dumps] wrote gives the dict that was written. *)
Lemma json_loads_dumps (d : dict) :
  NoDup (keys d) -> json_loads (json_dumps d) = Some d.
Proof.
  intros Hnd. destruct d as [|kv d]; [reflexivity|].
  unfold json_dumps, json_loads.
  change (skip_ws ("{" ++ json_items (kv :: d) ++ "}"))
    with (String "{" (json_items (kv :: d) ++ "}")).
  change (expect "{" (String "{" (json_items (kv :: d) ++ "}")))
    with (Some (json_items (kv :: d) ++ "}")).
  cbv iota.
  destruct (json_items_head kv d) as [t E].
  assert (Hsk : skip_ws (json_items (kv :: d) ++ "}")
                = String dquote (t ++ "}")) by (rewrite E; reflexivity).
  rewrite Hsk. change (Ascii.eqb dquote "}") with false. cbv iota.
  rewrite parse_members_json_items;
    [| discriminate | apply json_items_length].
  simpl skip_ws. cbv iota.
  now rewrite set_all_fresh.
Qed.

End JsonFacts.

(* ------------------------------------------------------------------ *)
(** ** The pending flag under interleaving *)

Module SignalFacts.
Import Signal.

Lemma run_app (s1 s2 : list action) (c : cell) :
  run (s1 ++ s2) c = run s2 (run s1 c).
Proof. unfold run. apply fold_left_app. Qed.

Lemma run_snoc (sched : list action) (a : action) (c : cell) :
  run (sched ++ [a]) c = step a (run sched c).
Proof. now rewrite run_app. Qed.

Lemma sets_S (n : nat) (f : bool) : sets (S n) f = true.
Proof. reflexivity. Qed.

Lemma irqs_snoc (sched : list action) (a : action) :
  irqs (sched ++ [a]) =
  (irqs sched + match a with Irq => 1 | Step => 0 end)%nat.
Proof.
  unfold irqs. rewrite filter_app, length_app. destruct a; reflexivity.
Qed.

(** Without interference the two steps of the main loop are the atomic
    take. *)
Lemma sequential_take (f : bool) :
  run [Step; Step] (start f)
  = mkCell (snd (take_atomic f)) (Taken (fst (take_atomic f))).
Proof. destruct f; reflexivity. Qed.

Lemma lin_step (f0 : bool) (n : nat) (c : cell) (a : action) :
  lin f0 n c ->
  lin f0 (n + match a with Irq => 1 | Step => 0 end) (step a c).
Proof.
  unfold lin. destruct c as [f p]. destruct a; simpl.
  - (* the callback runs *)
    rewrite Nat.add_1_r.
    destruct p as [| |r]; simpl.
    + reflexivity.
    + intros _. split; reflexivity.
    + intros (b & a & Hn & Hr & Hf). exists b, (S a).
      repeat split; [lia | exact Hr].
  - (* the main loop moves *)
    rewrite Nat.add_0_r.
    destruct p as [| |r]; simpl.
    + destruct f; simpl; intros Hf.
      * split; [reflexivity | now symmetry].
      * exists n, O. repeat split; [lia | exact Hf].
    + intros [_ Hs]. exists n, O. repeat split; [lia | now symmetry].
    + trivial.
Qed.

Lemma lin_run (f0 : bool) (sched : list action) :
  lin f0 (irqs sched) (run sched (start f0)).
Proof.
  induction sched as [|a sched IH] using rev_ind.
  - reflexivity.
  - rewrite run_snoc, irqs_snoc. now apply lin_step.
Qed.

Lemma will_see_run (sched : list action) (c : cell) :
  will_see c -> will_see (run sched c).
Proof.
  revert c. induction sched as [|a sched IH]; intros c Hc; [exact Hc|].
  apply IH. destruct c as [f p]. unfold will_see in *.
  destruct a, p; simpl in *; subst; simpl; auto.
Qed.

Lemma stays_set_run (sched : list action) (c : cell) :
  stays_set c -> stays_set (run sched c).
Proof.
  revert c. induction sched as [|a sched IH]; intros c Hc; [exact Hc|].
  apply IH. destruct c as [f p]. destruct Hc as [Hf [r Hp]].
  simpl in *; subst.
  destruct a; (split; [reflexivity | eexists; reflexivity]).
Qed.

End SignalFacts.

(** C9. The test-and-clear of [measure_pending] behaves as an atomic take
    under every interleaving with [timer_callback]: once the take is over,
    its result and the flag it leaves are those of an execution in which
    some of the callbacks ran first, then the take in one step, then the
    remaining callbacks; and no single run of the callback is lost: either
    it came before the take was over and the take reports pending work, or
    the flag is still set afterwards. *)
Theorem C9_take_is_atomic_wrt_timer_callback
  (f0 : bool) (sched : list Signal.action) (r f1 : bool) :
  Signal.run sched (Signal.start f0) = Signal.mkCell f1 (Signal.Taken r) ->
  (exists before after,
      Signal.irqs sched = (before + after)%nat
      /\ r = fst (Signal.take_atomic (Signal.sets before f0))
      /\ f1 = Signal.sets after
                (snd (Signal.take_atomic (Signal.sets before f0))))
  /\ (forall pre post,
        sched = (pre ++ Signal.Irq :: post)%list ->
        (r = true
         /\ forall r', Signal.pc (Signal.run pre (Signal.start f0))
                       <> Signal.Taken r')
        \/ f1 = true).
Proof.
  intros Hrun. split.
  - pose proof (SignalFacts.lin_run f0 sched) as L.
    unfold Signal.lin in L. rewrite Hrun in L. exact L.
  - intros pre post ->. rewrite SignalFacts.run_app in Hrun.
    simpl in Hrun.
    change (Signal.run post
              (Signal.step Signal.Irq (Signal.run pre (Signal.start f0)))
            = Signal.mkCell f1 (Signal.Taken r)) in Hrun.
    destruct (Signal.run pre (Signal.start f0)) as [f p] eqn:Epre.
    destruct p as [| |r0].
    + left. split; [|simpl; discriminate].
      pose proof (SignalFacts.will_see_run post
                    (Signal.step Signal.Irq (Signal.mkCell f Signal.AtTest))
                    eq_refl) as W.
      rewrite Hrun in W. exact W.
    + left. split; [|simpl; discriminate].
      pose proof (SignalFacts.will_see_run post
                    (Signal.step Signal.Irq (Signal.mkCell f Signal.AtClear))
                    I) as W.
      rewrite Hrun in W. exact W.
    + right.
      assert (S0 : Signal.stays_set
                     (Signal.step Signal.Irq
                        (Signal.mkCell f (Signal.Taken r0))))
        by (split; [reflexivity | eexists; reflexivity]).
      apply (SignalFacts.stays_set_run post) in S0.
      rewrite Hrun in S0. exact (proj1 S0).
Qed.

Lemma C9_take_is_atomic_wrt_timer_callback_witness :
  (exists before after,
      Signal.irqs [Signal.Step; Signal.Irq; Signal.Step] = (before + after)%nat
      /\ true = fst (Signal.take_atomic (Signal.sets before true))
      /\ false = Signal.sets after
                   (snd (Signal.take_atomic (Signal.sets before true))))
  /\ (forall pre post,
        [Signal.Step; Signal.Irq; Signal.Step]
        = (pre ++ Signal.Irq :: post)%list ->
        (true = true
         /\ forall r', Signal.pc (Signal.run pre (Signal.start true))
                       <> Signal.Taken r')
        \/ false = true).
Proof.
  exact (C9_take_is_atomic_wrt_timer_callback
           true [Signal.Step; Signal.Irq; Signal.Step] true false eq_refl).
Defined.

(* ------------------------------------------------------------------ *)
(** ** The firmware *)

Module FirmwareFacts.
Import Json Firmware.
Local Open Scope Z_scope.
Local Open Scope fw_scope.

(** *** Time passing touches only the clock and the pending flag *)

Lemma trace_advance d s : trace (advance d s) = trace s.
Proof. unfold advance. now destruct (fired _ _ _). Qed.

Lemma mqtt_client_advance d s : mqtt_client (advance d s) = mqtt_client s.
Proof. unfold advance. now destruct (fired _ _ _). Qed.

Lemma calls_advance d s : calls (advance d s) = calls s.
Proof. unfold advance. now destruct (fired _ _ _). Qed.

Lemma timer_advance d s : timer (advance d s) = timer s.
Proof. unfold advance. now destruct (fired _ _ _). Qed.

Lemma clock_ms_advance d s : clock_ms (advance d s) = clock_ms s + d.
Proof. unfold advance. now destruct (fired _ _ _). Qed.

Lemma dht_buf_advance d s : dht_buf (advance d s) = dht_buf s.
Proof. unfold advance. now destruct (fired _ _ _). Qed.

Lemma wifi_connected_advance d s :
  wifi_connected (advance d s) = wifi_connected s.
Proof. unfold advance. now destruct (fired _ _ _). Qed.

Lemma measure_pending_advance d s :
  measure_pending (advance d s)
  = measure_pending s || fired (timer s) (clock_ms s) (clock_ms s + d).
Proof.
  unfold advance. destruct (fired _ _ _); simpl.
  - now rewrite orb_true_r.
  - now rewrite orb_false_r.
Qed.

Create Rewrite HintDb fw.
#[export] Hint Rewrite trace_advance mqtt_client_advance calls_advance
  timer_advance clock_ms_advance dht_buf_advance wifi_connected_advance
  measure_pending_advance : fw.

Ltac fields := repeat (simpl; autorewrite with fw).

(** Run the [bind] at the head of the goal by one step. *)
Ltac step_bind :=
  match goal with
  | |- context [bind ?m ?k ?s] =>
      change (bind m k s)
        with (match m s with
              | Ok a s' => k a s'
              | Raise e s' => Raise e s'
              end)
  end.

(** Unfold the plumbing of the monad and of the primitives. *)
Ltac plumbing :=
  cbv [bind try_except client_call driver_call unit_answer get modify print
       ret raise sleep_ms time_time machine_reset wlan_isconnected
       dht_measure dht_temperature dht_humidity timer_init timer_deinit].

(** *** The timer fires in a window exactly if it fires in one of its parts *)

Lemma ticks_by_mono (a p t t' : Z) :
  t <= t' ->
  (0 < p -> ticks_by (a, p) t <= ticks_by (a, p) t')
  /\ (p <= 0 -> ticks_by (a, p) t' <= ticks_by (a, p) t).
Proof.
  intros Ht. unfold ticks_by. simpl. split; intros Hp.
  - apply Z.div_le_mono; lia.
  - destruct (Z.eq_dec p 0) as [->|Hp0].
    + rewrite !Z.div_0_r. lia.
    + rewrite <- (Z.div_opp_opp (t' - a)), <- (Z.div_opp_opp (t - a)) by lia.
      apply Z.div_le_mono; lia.
Qed.

Lemma fired_refl (tm : option (Z * Z)) (t : Z) : fired tm t t = false.
Proof. destruct tm as [p|]; simpl; [apply Z.ltb_irrefl | reflexivity]. Qed.

Lemma fired_trans (tm : option (Z * Z)) (t0 t1 t2 : Z) :
  t0 <= t1 -> t1 <= t2 ->
  fired tm t0 t2 = fired tm t0 t1 || fired tm t1 t2.
Proof.
  intros H01 H12. destruct tm as [[a p]|]; simpl; [|reflexivity].
  destruct (ticks_by_mono a p t0 t1 H01) as [U01 D01].
  destruct (ticks_by_mono a p t1 t2 H12) as [U12 D12].
  destruct (Z.ltb_spec (ticks_by (a, p) t0) (ticks_by (a, p) t2));
    destruct (Z.ltb_spec (ticks_by (a, p) t0) (ticks_by (a, p) t1));
    destruct (Z.ltb_spec (ticks_by (a, p) t1) (ticks_by (a, p) t2));
    try reflexivity; exfalso; destruct (Z_lt_le_dec 0 p); lia.
Qed.

(** A window as long as the period always contains a tick. *)
Lemma fired_full_period (a p t d : Z) :
  0 < p -> p <= d -> fired (Some (a, p)) t (t + d) = true.
Proof.
  intros Hp Hd. simpl. unfold ticks_by. simpl. apply Z.ltb_lt.
  assert (H : (t - a) / p + 1 <= (t + d - a) / p).
  { replace (t + d - a) with ((t - a) + (d - p) + 1 * p) by lia.
    rewrite Z.div_add by lia.
    pose proof (Z.div_le_mono (t - a) (t - a + (d - p)) p Hp). lia. }
  lia.
Qed.

(** *** [steady] is a preorder, and the elementary updates are steady *)

Lemma steady_refl (s : State) : steady s s.
Proof.
  unfold steady. rewrite fired_refl, orb_false_r.
  repeat split; try lia. exists []. now rewrite app_nil_r.
Qed.

Lemma steady_trans (s1 s2 s3 : State) :
  steady s1 s2 -> steady s2 s3 -> steady s1 s3.
Proof.
  intros (T12 & C12 & P12 & R12 & [l12 E12]) (T23 & C23 & P23 & R23 & [l23 E23]).
  unfold steady. repeat split; try congruence; try lia.
  - rewrite P23, P12, T12, (fired_trans _ _ _ _ C12 C23).
    now rewrite orb_assoc.
  - exists (l12 ++ l23)%list. now rewrite E23, E12, app_assoc.
Qed.

Lemma steady_log (e : Event) (s : State) :
  is_reset e = false -> steady s (log e s).
Proof.
  intros He. unfold steady. simpl. rewrite fired_refl, orb_false_r.
  repeat split; try lia.
  - unfold resets. rewrite filter_app, length_app. simpl. rewrite He.
    simpl. lia.
  - now exists [e].
Qed.

Lemma steady_advance (d : Z) (s : State) : 0 <= d -> steady s (advance d s).
Proof.
  intros Hd. unfold steady.
  rewrite timer_advance, clock_ms_advance, measure_pending_advance,
    trace_advance.
  repeat split; try lia. exists []. now rewrite app_nil_r.
Qed.

Lemma steady_same (s s' : State) :
  timer s' = timer s -> clock_ms s' = clock_ms s ->
  measure_pending s' = measure_pending s -> trace s' = trace s ->
  steady s s'.
Proof.
  intros Ht Hc Hp Hr. unfold steady.
  rewrite Ht, Hc, Hp, Hr, fired_refl, orb_false_r.
  repeat split; try lia. exists []. now rewrite app_nil_r.
Qed.

(** Chain [steady] through a composition of elementary updates. *)
Ltac steady_chain :=
  repeat first
    [ apply steady_refl
    | match goal with
      | |- steady ?s (log ?e ?x) =>
          apply (steady_trans s x); [|apply steady_log; reflexivity]
      | |- steady ?s (advance ?d ?x) =>
          apply (steady_trans s x);
          [|apply steady_advance; first [apply N2Z.is_nonneg | lia]]
      | |- steady ?s (bump_calls ?x) =>
          apply (steady_trans s x); [|apply steady_same; reflexivity]
      | |- steady ?s (set_mqtt_client ?c ?x) =>
          apply (steady_trans s x); [|apply steady_same; reflexivity]
      | |- steady ?s (set_dht_buf ?r ?x) =>
          apply (steady_trans s x); [|apply steady_same; reflexivity]
      | |- steady ?s (set_last_measure_time ?t ?x) =>
          apply (steady_trans s x); [|apply steady_same; reflexivity]
      | |- steady ?s (set_wifi_connected ?b ?x) =>
          apply (steady_trans s x); [|apply steady_same; reflexivity]
      end ].

Section Program.

Variable cfg : Config.
Variable env : Env.

(** *** [mqtt_connect] *)

Lemma mqtt_connect_eq (s : State) :
  mqtt_connect cfg env s
  = Ok (connect_ok env (calls s)) (after_connect cfg env s).
Proof.
  unfold mqtt_connect, after_connect, dialled, client_or_new, connect_verdict.
  plumbing.
  destruct s as [mp lt wc [c|] db tm ck n tr]; simpl;
    destruct (connect_ok env n); reflexivity.
Qed.

Lemma trace_after_connect (s : State) :
  trace (after_connect cfg env s)
  = (trace s ++ [EPrint "Connecting to AWS IoT MQTT...";
                 EMqttConnect (connect_ok env (calls s));
                 EPrint (connect_verdict (connect_ok env (calls s)))])%list.
Proof.
  unfold after_connect, dialled.
  destruct (connect_ok env (calls s)); fields;
    rewrite <- !app_assoc; reflexivity.
Qed.

Lemma mqtt_client_after_connect (s : State) :
  mqtt_client (after_connect cfg env s)
  = if connect_ok env (calls s) then Some (client_or_new cfg env s) else None.
Proof.
  unfold after_connect, dialled.
  destruct (connect_ok env (calls s)); fields; reflexivity.
Qed.

(** *** [mqtt_publish] *)

Lemma calls_after_connect (s : State) :
  calls (after_connect cfg env s) = S (calls s).
Proof.
  unfold after_connect, dialled.
  destruct (connect_ok env (calls s)); fields; reflexivity.
Qed.

Lemma send_eq (payload : string) (u : State) :
  mqtt_client u <> None ->
  try_except
    (client_call env (publish_ok env)
       (EMqttPublish (MQTT_TOPIC cfg) payload) ;; ret true)
    (fun _ =>
       print "Publish failed, will try reconnect:" ;;
       try_except (client_call env (disconnect_ok env) EMqttDisconnect)
                  (fun _ => ret tt) ;;
       modify (set_mqtt_client None) ;;
       ret false) u
  = Ok (publish_ok env (calls u)) (after_send cfg env payload u).
Proof.
  intros Hc. unfold after_send. plumbing.
  destruct u as [mp lt wc [c|] db tm ck n tr]; [|simpl in Hc; congruence].
  simpl.
  destruct (publish_ok env n); simpl; [reflexivity|].
  rewrite mqtt_client_advance. fields.
  destruct (disconnect_ok env (S n)); reflexivity.
Qed.

Lemma mqtt_publish_eq (payload : string) (s : State) :
  mqtt_publish cfg env payload s
  = Ok (publish_result env s) (after_publish cfg env payload s).
Proof.
  unfold mqtt_publish, publish_result, after_publish.
  step_bind. unfold get at 1. cbv beta iota.
  destruct (mqtt_client s) as [c|] eqn:Ec.
  - step_bind. unfold ret at 1. cbv beta iota. simpl negb. cbv iota.
    apply send_eq. congruence.
  - step_bind. step_bind. rewrite mqtt_connect_eq. cbv beta iota.
    unfold ret at 1. cbv beta iota.
    destruct (connect_ok env (calls s)) eqn:Eok; cbn [negb andb].
    + rewrite send_eq.
      * now rewrite calls_after_connect.
      * rewrite mqtt_client_after_connect, Eok. discriminate.
    + reflexivity.
Qed.

(** *** [measure_and_publish] *)

Lemma read_eq (s : State) :
  try_except
    (dht_measure env ;;
     temp <- dht_temperature ;;
     hum <- dht_humidity ;;
     ret (Some (temp, hum)))
    (fun _ => print "Sensor read failed:" ;; ret None) s
  = match sensor env (calls s) with
    | Some r => Ok (Some r) (measured env s)
    | None => Ok None (log (EPrint "Sensor read failed:") (measured env s))
    end.
Proof.
  unfold measured. plumbing.
  destruct (sensor env (calls s)) as [[t h]|]; fields; reflexivity.
Qed.

Lemma measure_and_publish_eq (s : State) :
  measure_and_publish cfg env s
  = Ok (cycle_result cfg env s) (after_cycle cfg env s).
Proof.
  unfold measure_and_publish, cycle_result, after_cycle, announced.
  step_bind. rewrite read_eq.
  destruct (sensor env (calls s)) as [[t h]|]; cbv beta iota.
  - step_bind. unfold time_time at 1, get at 1. cbv beta iota zeta.
    step_bind. unfold print at 1, modify at 1. cbv beta iota.
    step_bind. rewrite mqtt_publish_eq. cbv beta iota.
    unfold payload_json. simpl fst. simpl snd.
    destruct (publish_result env _); reflexivity.
  - reflexivity.
Qed.

(** *** One round of the loop *)

Lemma service_eq (s : State) :
  service cfg env s = Ok tt (after_service cfg env s).
Proof.
  unfold service, after_service, after_backoff, work_start.
  step_bind. unfold modify at 1. cbv beta iota.
  step_bind. unfold time_time at 1, get at 1. cbv beta iota.
  step_bind. unfold modify at 1. cbv beta iota.
  step_bind. rewrite measure_and_publish_eq. cbv beta iota.
  simpl clock_ms.
  destruct (cycle_result cfg env _); cbn [negb]; [reflexivity|].
  step_bind. unfold print at 1, modify at 1. cbv beta iota.
  step_bind. unfold sleep_ms at 1, modify at 1. cbv beta iota.
  step_bind. rewrite mqtt_connect_eq. reflexivity.
Qed.

Lemma loop_iteration_eq (s : State) :
  loop_iteration cfg env s = Ok tt (after_iteration cfg env s).
Proof.
  unfold loop_iteration, after_iteration.
  step_bind. unfold get at 1. cbv beta iota.
  step_bind.
  destruct (measure_pending s); [rewrite service_eq | unfold ret at 1];
    reflexivity.
Qed.

(** *** Counting on traces *)

Lemma handshakes_app (a b : list Event) :
  handshakes (a ++ b) = (handshakes a + handshakes b)%nat.
Proof. unfold handshakes. now rewrite filter_app, length_app. Qed.

Lemma sends_app (a b : list Event) :
  sends (a ++ b) = (sends a + sends b)%nat.
Proof. unfold sends. now rewrite filter_app, length_app. Qed.

Lemma trace_after_send (payload : string) (u : State) :
  trace (after_send cfg env payload u)
  = (trace u ++
     if publish_ok env (calls u)
     then [EMqttPublish (MQTT_TOPIC cfg) payload true]
     else [EMqttPublish (MQTT_TOPIC cfg) payload false;
           EPrint "Publish failed, will try reconnect:";
           EMqttDisconnect (disconnect_ok env (S (calls u)))])%list.
Proof.
  unfold after_send.
  destruct (publish_ok env (calls u)); fields;
    rewrite <- ?app_assoc; reflexivity.
Qed.

Lemma mqtt_client_after_send (payload : string) (u : State) :
  mqtt_client (after_send cfg env payload u)
  = if publish_ok env (calls u) then mqtt_client u else None.
Proof.
  unfold after_send. destruct (publish_ok env (calls u)); fields; reflexivity.
Qed.

(** A failed [mqtt_publish] leaves no client behind. *)
Lemma failed_publish_drops_client (payload : string) (s : State) :
  publish_result env s = false ->
  mqtt_client (after_publish cfg env payload s) = None.
Proof.
  unfold publish_result, after_publish.
  destruct (mqtt_client s) as [c|] eqn:Ec.
  - intros H. now rewrite mqtt_client_after_send, H.
  - destruct (connect_ok env (calls s)) eqn:Eok; simpl; intros H.
    + now rewrite mqtt_client_after_send, calls_after_connect, H.
    + now rewrite mqtt_client_after_connect, Eok.
Qed.

(** Without a client, [mqtt_publish] starts with a handshake, and sends
    only if that handshake succeeds. *)
Lemma trace_publish_offline (payload : string) (s : State) :
  mqtt_client s = None ->
  trace (after_publish cfg env payload s)
  = (trace s ++
     [EPrint "Connecting to AWS IoT MQTT...";
      EMqttConnect (connect_ok env (calls s));
      EPrint (connect_verdict (connect_ok env (calls s)))] ++
     if connect_ok env (calls s) then
       if publish_ok env (S (calls s))
       then [EMqttPublish (MQTT_TOPIC cfg) payload true]
       else [EMqttPublish (MQTT_TOPIC cfg) payload false;
             EPrint "Publish failed, will try reconnect:";
             EMqttDisconnect (disconnect_ok env (S (S (calls s))))]
     else [])%list.
Proof.
  intros Hc. unfold after_publish. rewrite Hc.
  destruct (connect_ok env (calls s)) eqn:Eok.
  - rewrite trace_after_send, trace_after_connect, calls_after_connect, Eok.
    now rewrite <- app_assoc.
  - now rewrite trace_after_connect, Eok.
Qed.

(** *** Nothing the loop calls clears the flag, stops the timer or resets *)

Lemma steady_after_connect (s : State) : steady s (after_connect cfg env s).
Proof.
  unfold after_connect, dialled.
  destruct (connect_ok env (calls s)); steady_chain.
Qed.

Lemma steady_after_send (payload : string) (u : State) :
  steady u (after_send cfg env payload u).
Proof.
  unfold after_send. destruct (publish_ok env (calls u)); steady_chain.
Qed.

Lemma steady_after_publish (payload : string) (s : State) :
  steady s (after_publish cfg env payload s).
Proof.
  unfold after_publish. destruct (mqtt_client s).
  - apply steady_after_send.
  - destruct (connect_ok env (calls s)).
    + eapply steady_trans; [apply steady_after_connect|].
      apply steady_after_send.
    + apply steady_after_connect.
Qed.

Lemma steady_measured (s : State) : steady s (measured env s).
Proof.
  unfold measured. destruct (sensor env (calls s)); steady_chain.
Qed.

Lemma steady_after_cycle (s : State) : steady s (after_cycle cfg env s).
Proof.
  unfold after_cycle, announced.
  destruct (sensor env (calls s)) as [r|].
  - cbv zeta.
    eapply steady_trans; [|apply steady_log; reflexivity].
    eapply steady_trans; [|apply steady_after_publish].
    eapply steady_trans; [|apply steady_log; reflexivity].
    apply steady_measured.
  - eapply steady_trans; [|apply steady_log; reflexivity].
    apply steady_measured.
Qed.

Lemma steady_after_backoff (c : State) : steady c (after_backoff cfg env c).
Proof.
  unfold after_backoff.
  eapply steady_trans; [|apply steady_after_connect].
  steady_chain.
Qed.

(** *** Traces and clocks of a cycle and of the backoff *)

Lemma calls_work_start (s : State) : calls (work_start s) = calls s.
Proof. reflexivity. Qed.

Lemma trace_log (e : Event) (s : State) :
  trace (log e s) = (trace s ++ [e])%list.
Proof. reflexivity. Qed.

Lemma trace_measured (s : State) :
  exists ok, trace (measured env s) = (trace s ++ [ESensorMeasure ok])%list.
Proof.
  unfold measured.
  destruct (sensor env (calls s)); eexists; fields; reflexivity.
Qed.

Lemma trace_after_cycle_head (s : State) :
  exists ok tail,
    trace (after_cycle cfg env s) = (trace s ++ ESensorMeasure ok :: tail)%list.
Proof.
  destruct (trace_measured s) as [ok Hm]. exists ok.
  unfold after_cycle, announced.
  destruct (sensor env (calls s)) as [r|] eqn:Es.
  - cbv zeta.
    destruct (steady_after_publish
                (payload_json cfg (measured env s) r)
                (log (EPrint ("Publishing: "
                              ++ payload_json cfg (measured env s) r))
                     (measured env s)))
      as (_ & _ & _ & _ & [tl E]).
    rewrite trace_log, E, trace_log, Hm.
    eexists. rewrite <- !app_assoc. simpl. reflexivity.
  - rewrite trace_log, Hm.
    eexists. rewrite <- !app_assoc. simpl. reflexivity.
Qed.

Lemma trace_failed_read (s : State) :
  sensor env (calls s) = None ->
  trace (after_cycle cfg env s)
  = (trace s ++ [ESensorMeasure false; EPrint "Sensor read failed:"])%list
  /\ mqtt_client (after_cycle cfg env s) = mqtt_client s
  /\ cycle_result cfg env s = false
  /\ calls (after_cycle cfg env s) = S (calls s).
Proof.
  intros Es. unfold after_cycle, cycle_result, measured. rewrite Es. fields.
  rewrite <- !app_assoc. repeat split.
Qed.

Lemma trace_after_backoff (c : State) :
  trace (after_backoff cfg env c)
  = (trace c ++ [EPrint "Attempting reconnect in 5s...";
                 ESleep 5000;
                 EPrint "Connecting to AWS IoT MQTT...";
                 EMqttConnect (connect_ok env (calls c));
                 EPrint (connect_verdict (connect_ok env (calls c)))])%list.
Proof.
  unfold after_backoff. rewrite trace_after_connect. fields.
  rewrite <- !app_assoc. reflexivity.
Qed.

Lemma clock_ms_after_connect (s : State) :
  clock_ms (after_connect cfg env s)
  = clock_ms s + Z.of_N (cost env (calls s)).
Proof.
  unfold after_connect, dialled.
  destruct (connect_ok env (calls s)); fields; reflexivity.
Qed.

Lemma clock_ms_after_backoff (c : State) :
  clock_ms (after_backoff cfg env c)
  = clock_ms c + 5000 + Z.of_N (cost env (calls c)).
Proof.
  unfold after_backoff. rewrite clock_ms_after_connect. fields. reflexivity.
Qed.

Lemma steady_after_service (s : State) :
  steady (work_start s) (after_service cfg env s).
Proof.
  unfold after_service. cbv zeta.
  destruct (cycle_result cfg env (work_start s)).
  - apply steady_after_cycle.
  - eapply steady_trans; [apply steady_after_cycle|].
    apply steady_after_backoff.
Qed.

(** The events of a round that found the flag set. *)
Lemma trace_after_iteration (s : State) :
  measure_pending s = true ->
  trace (after_iteration cfg env s)
  = (trace (after_cycle cfg env (work_start s)) ++
     (if cycle_result cfg env (work_start s) then []
      else [EPrint "Attempting reconnect in 5s...";
            ESleep 5000;
            EPrint "Connecting to AWS IoT MQTT...";
            EMqttConnect
              (connect_ok env (calls (after_cycle cfg env (work_start s))));
            EPrint
              (connect_verdict
                 (connect_ok env
                    (calls (after_cycle cfg env (work_start s)))))]) ++
     [ESleep 100])%list.
Proof.
  intros Hp. unfold after_iteration, after_service. rewrite Hp. cbv zeta.
  rewrite trace_advance, trace_log.
  destruct (cycle_result cfg env (work_start s)).
  - reflexivity.
  - rewrite trace_after_backoff. now rewrite <- !app_assoc.
Qed.

Lemma clock_ms_after_iteration (s : State) :
  measure_pending s = true ->
  clock_ms (after_iteration cfg env s)
  = clock_ms (after_cycle cfg env (work_start s))
    + (if cycle_result cfg env (work_start s) then 0
       else 5000
            + Z.of_N (cost env (calls (after_cycle cfg env (work_start s)))))
    + 100.
Proof.
  intros Hp. unfold after_iteration, after_service. rewrite Hp. cbv zeta.
  rewrite clock_ms_advance.
  destruct (cycle_result cfg env (work_start s)).
  - simpl. lia.
  - simpl clock_ms. rewrite clock_ms_after_backoff. lia.
Qed.

(** *** The payload *)

Lemma make_payload_eq (thing : string) (timestamp temp hum : Z) :
  make_payload thing timestamp temp hum
  = [("thing", JStr thing); ("timestamp", JInt timestamp);
     ("temperature_C", JInt temp); ("humidity_pct", JInt hum)].
Proof. reflexivity. Qed.

Lemma payload_reads_back (thing : string) (timestamp temp hum : Z) :
  json_loads (json_dumps (make_payload thing timestamp temp hum))
  = Some (make_payload thing timestamp temp hum).
Proof.
  apply JsonFacts.json_loads_dumps. rewrite make_payload_eq. simpl.
  repeat constructor; simpl; intuition discriminate.
Qed.

(** A successful [mqtt_publish] ends with the send, and that is its only
    send. *)
Lemma trace_published (payload : string) (s : State) :
  publish_result env s = true ->
  exists front,
    trace (after_publish cfg env payload s)
    = (front ++ [EMqttPublish (MQTT_TOPIC cfg) payload true])%list
    /\ sends front = sends (trace s).
Proof.
  unfold publish_result, after_publish.
  destruct (mqtt_client s) as [c|] eqn:Ec.
  - intros Hp. exists (trace s). now rewrite trace_after_send, Hp.
  - destruct (connect_ok env (calls s)) eqn:Eok; [|discriminate].
    simpl. intros Hp.
    rewrite trace_after_send, calls_after_connect, Hp, trace_after_connect.
    eexists. split; [reflexivity|].
    rewrite sends_app. unfold sends at 2. simpl. lia.
Qed.

(** The text the firmware writes for scenario E has a blank after each
    comma and colon, which the text of the design leaves out; both denote
    the same map. *)
Lemma scenario_E_same_map :
  json_dumps (make_payload "T1" 1700000000 24 55) <> scenario_E_text
  /\ json_loads (json_dumps (make_payload "T1" 1700000000 24 55))
     = json_loads scenario_E_text.
Proof. split; [discriminate | reflexivity]. Qed.

(** *** The loop's test-and-clear, seen as the two steps of [Signal] *)

Lemma timer_callback_sets_flag (s : State) :
  measure_pending (timer_callback s)
  = Signal.timer_callback (measure_pending s).
Proof. reflexivity. Qed.

Lemma loop_take_is_signal_take (s : State) :
  Signal.run [Signal.Step; Signal.Step] (Signal.start (measure_pending s))
  = Signal.mkCell
      (measure_pending (if measure_pending s then work_start s else s))
      (Signal.Taken (measure_pending s)).
Proof. destruct (measure_pending s) eqn:E; simpl; rewrite ?E; reflexivity. Qed.

(** *** [connect_wifi] *)

Lemma whole_seconds (c : Z) :
  1000 * (c / 1000) <= c < 1000 * (c / 1000) + 1000.
Proof.
  pose proof (Z.div_mod c 1000). pose proof (Z.mod_pos_bound c 1000). lia.
Qed.

(** The waiting loop returns before its fuel is used up; it returns [false]
    only once the whole seconds elapsed exceed the timeout, and it does so
    whenever the link stays down that long. *)
Lemma wifi_wait_spec (fuel : nat) (start : Z) :
  forall s,
    (start + 16) * 1000 - clock_ms s <= 500 * (Z.of_nat fuel - 1) ->
    clock_ms s < (start + 16) * 1000 + 500 ->
    exists b s' k,
      wifi_wait env fuel start s = Ok b s'
      /\ steady s s'
      /\ trace s'
         = (trace s ++ repeat (ESleep 500) k ++
            if b then [] else [EPrint "WiFi connect timed out"])%list
      /\ (if b then link_up env (clock_ms s') = true
          else wifi_connected s' = false
               /\ (start + 16) * 1000 <= clock_ms s')
      /\ ((forall t, clock_ms s <= t < (start + 17) * 1000 ->
                     link_up env t = false) -> b = false).
Proof.
  induction fuel as [|fuel IH]; intros s Hfuel Hclock.
  - simpl Z.of_nat in Hfuel. lia.
  - cbn [wifi_wait]. plumbing.
    destruct (link_up env (clock_ms s)) eqn:Eup.
    + exists true, s, O. split; [reflexivity|].
      split; [apply steady_refl|].
      split; [simpl; now rewrite app_nil_r|].
      split; [exact Eup|].
      intros Hdown. rewrite Hdown in Eup; [discriminate|].
      pose proof (whole_seconds (clock_ms s)). lia.
    + unfold wifi_timeout. rewrite Z.gtb_ltb.
      pose proof (whole_seconds (clock_ms s)) as Hsec.
      destruct (Z.ltb_spec 15 (clock_ms s / 1000 - start)) as [Hout|Hin].
      * exists false. eexists. exists O. split; [reflexivity|].
        split; [steady_chain|].
        split; [reflexivity|].
        split; [|reflexivity].
        split; [reflexivity | simpl; lia].
      * destruct (IH (advance 500 (log (ESleep 500) s)))
          as (b & s' & k & Hrun & Hst & Htr & Hb & Hdown).
        { rewrite clock_ms_advance. cbn [clock_ms log]. lia. }
        { rewrite clock_ms_advance. cbn [clock_ms log]. lia. }
        exists b, s', (S k). split; [exact Hrun|].
        split; [eapply steady_trans; [|exact Hst]; steady_chain|].
        split.
        { rewrite Htr, trace_advance, trace_log, <- app_assoc.
          reflexivity. }
        split; [exact Hb|].
        intros Hd. apply Hdown. intros t Ht. apply Hd.
        rewrite clock_ms_advance in Ht. cbn [clock_ms log] in Ht. lia.
Qed.

Lemma connect_wifi_spec (s : State) :
  exists b s',
    connect_wifi cfg env s = Ok b s'
    /\ steady s s'
    /\ (if b then wifi_connected s' = true
        else wifi_connected s' = false
             /\ 15000 < clock_ms s' - clock_ms s
             /\ exists k,
                 trace s'
                 = (trace s ++
                    [EPrint "Connecting to WiFi..."; EWlanActive;
                     EWlanConnect (WIFI_SSID cfg) (WIFI_PASS cfg)] ++
                    repeat (ESleep 500) k ++
                    [EPrint "WiFi connect timed out"])%list)
    /\ ((forall t, clock_ms s <= t < clock_ms s + 17000 ->
                   link_up env t = false) -> b = false).
Proof.
  pose proof (whole_seconds (clock_ms s)) as Hsec.
  unfold connect_wifi. step_bind. unfold wlan_isconnected at 1, get at 1.
  cbv beta iota.
  destruct (link_up env (clock_ms s)) eqn:Eup; cbn [negb]; step_bind.
  - unfold ret at 1. cbv beta iota. plumbing.
    exists true. eexists. split; [reflexivity|].
    split; [steady_chain|]. split; [reflexivity|].
    intros Hdown. rewrite Hdown in Eup; [discriminate | lia].
  - step_bind. unfold print at 1, modify at 1. cbv beta iota.
    step_bind. unfold modify at 1. cbv beta iota.
    step_bind. unfold modify at 1. cbv beta iota.
    step_bind. unfold time_time at 1, get at 1. cbv beta iota.
    set (s0 := log (EWlanConnect (WIFI_SSID cfg) (WIFI_PASS cfg))
                 (log EWlanActive (log (EPrint "Connecting to WiFi...") s))).
    destruct (wifi_wait_spec wifi_fuel (clock_ms s0 / 1000) s0)
      as (b & s' & k & Hrun & Hst & Htr & Hb & Hdown).
    { subst s0. simpl clock_ms. unfold wifi_fuel. simpl Z.of_nat. lia. }
    { subst s0. simpl clock_ms. lia. }
    rewrite Hrun. cbv beta iota.
    assert (Hs0 : steady s s0) by (subst s0; steady_chain).
    destruct b.
    + plumbing. exists true. eexists. split; [reflexivity|].
      split.
      { eapply steady_trans; [exact Hs0|].
        eapply steady_trans; [exact Hst|]. steady_chain. }
      split; [reflexivity|].
      intros Hd. apply Hdown. intros t Ht. apply Hd.
      subst s0. simpl clock_ms in Ht. lia.
    + unfold ret. exists false, s'. split; [reflexivity|].
      split; [eapply steady_trans; eassumption|].
      destruct Hb as [Hw Hc]. split; [|reflexivity].
      split; [exact Hw|].
      split; [subst s0; simpl clock_ms in Hc; lia|].
      exists k. rewrite Htr. subst s0. rewrite !trace_log.
      rewrite <- !app_assoc. reflexivity.
Qed.

(** *** [main] *)

Lemma steady_round (s : State) :
  measure_pending s = true ->
  steady (work_start s) (after_iteration cfg env s).
Proof.
  intros Hp. unfold after_iteration. rewrite Hp.
  eapply steady_trans; [apply steady_after_service|]. steady_chain.
Qed.

Lemma resets_after_iteration (s : State) :
  resets (trace (after_iteration cfg env s)) = resets (trace s).
Proof.
  destruct (measure_pending s) eqn:Hp.
  - destruct (steady_round s Hp) as (_ & _ & _ & Hr & _). exact Hr.
  - assert (St : steady s (after_iteration cfg env s))
      by (unfold after_iteration; rewrite Hp; steady_chain).
    destruct St as (_ & _ & _ & Hr & _). exact Hr.
Qed.

Lemma main_loop_S (n i : nat) (s : State) :
  main_loop cfg env (S n) i s
  = if ctrl_c env i then Raise KeyboardInterrupt s
    else main_loop cfg env n (S i) (after_iteration cfg env s).
Proof.
  cbn [main_loop]. step_bind.
  destruct (ctrl_c env i); [reflexivity|].
  unfold ret at 1. cbv beta iota. step_bind.
  now rewrite loop_iteration_eq.
Qed.

(** The loop is left only through [KeyboardInterrupt]. *)
Lemma main_loop_spec (n : nat) :
  forall i s, exists s',
    (main_loop cfg env n i s = Ok tt s'
     \/ main_loop cfg env n i s = Raise KeyboardInterrupt s')
    /\ resets (trace s') = resets (trace s).
Proof.
  induction n as [|n IH]; intros i s.
  - exists s. split; [left; reflexivity | reflexivity].
  - rewrite main_loop_S.
    destruct (ctrl_c env i).
    + exists s. split; [right; reflexivity | reflexivity].
    + destruct (IH (S i) (after_iteration cfg env s)) as (s' & Hrun & Hr).
      exists s'. split; [exact Hrun|].
      now rewrite Hr, resets_after_iteration.
Qed.

Lemma shutdown_spec (s : State) :
  exists s', shutdown env s = Ok tt s'
             /\ resets (trace s') = resets (trace s).
Proof.
  unfold shutdown. plumbing.
  destruct s as [mp lt wc [c|] db tm ck k tr]; cbn.
  - destruct (disconnect_ok env k); eexists;
      (split; [reflexivity|]); fields;
      unfold resets; rewrite !filter_app, !length_app; simpl; lia.
  - eexists. split; [reflexivity|]. cbn. unfold resets.
    rewrite !filter_app, !length_app. simpl. lia.
Qed.

(** The state in which [main] resets the device after a link timeout. *)
Lemma main_spec (n : nat) (s0 : State) :
  exists b s1,
    connect_wifi cfg env s0 = Ok b s1
    /\ if b then
         exists o s', main cfg env n s0 = Ok o s'
                      /\ resets (trace s') = resets (trace s0)
       else
         exists s',
           main cfg env n s0 = Raise SystemReset s'
           /\ trace s'
              = (trace s1 ++
                 [EPrint "Cannot continue without WiFi. Rebooting in 10s.";
                  ESleep 10000; EReset])%list.
Proof.
  destruct (connect_wifi_spec s0) as (b & s1 & Hwifi & Hst & _).
  exists b, s1. split; [exact Hwifi|].
  unfold main. step_bind. rewrite Hwifi. cbv beta iota.
  destruct b; cbn [negb]; step_bind.
  - unfold ret at 1. cbv beta iota.
    step_bind. unfold timer_init at 1, modify at 1. cbv beta iota.
    step_bind. unfold print at 1, modify at 1. cbv beta iota.
    step_bind. rewrite mqtt_connect_eq. cbv beta iota.
    match goal with
    | |- context [main_loop cfg env n 0%nat ?st] =>
        set (s2 := st);
        assert (Hs2 : resets (trace s2) = resets (trace s0))
    end.
    { subst s2.
      destruct (steady_after_connect
                  (log (EPrint ("Timer started, measuring every "
                                ++ string_of_Z (MEASURE_INTERVAL_MS cfg)
                                ++ " ms"))
                     (log (ETimerInit (MEASURE_INTERVAL_MS cfg))
                        (set_timer
                           (Some (clock_ms s1, MEASURE_INTERVAL_MS cfg)) s1))))
        as (_ & _ & _ & Hr & _).
      rewrite Hr. destruct Hst as (_ & _ & _ & Hr1 & _). rewrite <- Hr1.
      simpl trace. unfold resets.
      rewrite !filter_app, !length_app. simpl. lia. }
    destruct (main_loop_spec n 0%nat s2) as (s3 & [Hrun|Hrun] & Hr3);
      rewrite Hrun.
    + exists StillRunning, s3. split; [reflexivity | congruence].
    + destruct (shutdown_spec (log (EPrint "Stopped by user") s3))
        as (s4 & Hsd & Hr4).
      exists Stopped, s4. split.
      * plumbing. unfold print, modify, bind in *. 
        change (match shutdown env (log (EPrint "Stopped by user") s3) with
                | Ok _ s' => Ok Stopped s'
                | Raise e s' => Raise e s'
                end = Ok Stopped s4).
        now rewrite Hsd.
      * rewrite Hr4. simpl trace. unfold resets in *.
        rewrite filter_app, length_app. simpl. lia.
  - step_bind. unfold print at 1, modify at 1. cbv beta iota.
    step_bind. unfold sleep_ms at 1, modify at 1. cbv beta iota.
    unfold machine_reset. plumbing.
    eexists. split; [reflexivity|].
    fields. rewrite <- !app_assoc. reflexivity.
Qed.

(** *** [connect_wifi], poll by poll *)

(** The waiting loop polls the link every half second from the state it is
    entered in.  It returns [true] at the first poll that finds the link up,
    and [false] at the first poll that finds it down with more than
    [wifi_timeout] whole seconds elapsed since [start]; every earlier poll
    found the link down and the time not yet up. *)
Lemma wifi_wait_polls (fuel : nat) (start : Z) :
  forall s,
    (start + 16) * 1000 - clock_ms s <= 500 * (Z.of_nat fuel - 1) ->
    clock_ms s < (start + 16) * 1000 + 500 ->
    exists b s' k,
      wifi_wait env fuel start s = Ok b s'
      /\ steady s s'
      /\ clock_ms s' = clock_ms s + 500 * Z.of_nat k
      /\ trace s'
         = (trace s ++ repeat (ESleep 500) k ++
            if b then [] else [EPrint "WiFi connect timed out"])%list
      /\ (forall j, (j < k)%nat ->
                    link_up env (clock_ms s + 500 * Z.of_nat j) = false
                    /\ (clock_ms s + 500 * Z.of_nat j) / 1000 - start <= 15)
      /\ (if b then link_up env (clock_ms s') = true
          else link_up env (clock_ms s') = false
               /\ 15 < clock_ms s' / 1000 - start
               /\ wifi_connected s' = false).
Proof.
  induction fuel as [|fuel IH]; intros s Hfuel Hclock.
  - simpl Z.of_nat in Hfuel. lia.
  - cbn [wifi_wait]. plumbing.
    destruct (link_up env (clock_ms s)) eqn:Eup.
    + exists true, s, O. split; [reflexivity|].
      split; [apply steady_refl|].
      split; [simpl; lia|].
      split; [simpl; now rewrite app_nil_r|].
      split; [intros j Hj; lia | exact Eup].
    + unfold wifi_timeout. rewrite Z.gtb_ltb.
      destruct (Z.ltb_spec 15 (clock_ms s / 1000 - start)) as [Hout|Hin].
      * exists false. eexists. exists O. split; [reflexivity|].
        split; [steady_chain|].
        split; [simpl; lia|].
        split; [reflexivity|].
        split; [intros j Hj; lia|].
        simpl. repeat split; assumption.
      * pose proof (whole_seconds (clock_ms s)) as Hsec.
        destruct (IH (advance 500 (log (ESleep 500) s)))
          as (b & s' & k & Hrun & Hst & Hc & Htr & Hpolls & Hb).
        { rewrite clock_ms_advance. cbn [clock_ms log]. lia. }
        { rewrite clock_ms_advance. cbn [clock_ms log]. lia. }
        rewrite clock_ms_advance in Hc, Hpolls. cbn [clock_ms log] in Hc, Hpolls.
        exists b, s', (S k). split; [exact Hrun|].
        split; [eapply steady_trans; [|exact Hst]; steady_chain|].
        split; [lia|].
        split.
        { rewrite Htr, trace_advance, trace_log, <- app_assoc.
          reflexivity. }
        split; [|exact Hb].
        intros j Hj. destruct j as [|j].
        { simpl Z.of_nat. rewrite Z.mul_0_r, Z.add_0_r. split; assumption. }
        destruct (Hpolls j ltac:(lia)) as [Hd Ht].
        replace (clock_ms s + 500 * Z.of_nat (S j))
          with (clock_ms s + 500 + 500 * Z.of_nat j) by lia.
        split; assumption.
Qed.

(** [connect_wifi], poll by poll: poll [j] is taken [500 * j] ms after the
    call.  The call returns at poll [k]; all polls before it found the link
    down with at most 15 whole seconds elapsed.  It returns [True] if poll
    [k] finds the link up, and [False] if poll [k] finds it down with more
    than 15 whole seconds elapsed, which is the case for [k] equal to 31 or
    32 only. *)
Lemma connect_wifi_polls (s : State) :
  exists b s' k,
    connect_wifi cfg env s = Ok b s'
    /\ steady s s'
    /\ clock_ms s' = poll_time s k
    /\ (forall j, (j < k)%nat ->
                  link_up env (poll_time s j) = false
                  /\ seconds_waited s (poll_time s j) <= 15)
    /\ (if b then
          link_up env (poll_time s k) = true
          /\ wifi_connected s' = true
        else
          link_up env (poll_time s k) = false
          /\ 15 < seconds_waited s (poll_time s k)
          /\ (31 <= k <= 32)%nat
          /\ wifi_connected s' = false
          /\ trace s'
             = (trace s ++
                [EPrint "Connecting to WiFi..."; EWlanActive;
                 EWlanConnect (WIFI_SSID cfg) (WIFI_PASS cfg)] ++
                repeat (ESleep 500) k ++
                [EPrint "WiFi connect timed out"])%list).
Proof.
  pose proof (whole_seconds (clock_ms s)) as Hsec.
  unfold poll_time, seconds_waited.
  unfold connect_wifi. step_bind. unfold wlan_isconnected at 1, get at 1.
  cbv beta iota.
  destruct (link_up env (clock_ms s)) eqn:Eup; cbn [negb]; step_bind.
  - unfold ret at 1. cbv beta iota. plumbing.
    exists true. eexists. exists O. split; [reflexivity|].
    split; [steady_chain|].
    split; [simpl; lia|].
    split; [intros j Hj; lia|].
    simpl Z.of_nat. rewrite Z.mul_0_r, Z.add_0_r.
    split; [exact Eup | reflexivity].
  - step_bind. unfold print at 1, modify at 1. cbv beta iota.
    step_bind. unfold modify at 1. cbv beta iota.
    step_bind. unfold modify at 1. cbv beta iota.
    step_bind. unfold time_time at 1, get at 1. cbv beta iota.
    set (s0 := log (EWlanConnect (WIFI_SSID cfg) (WIFI_PASS cfg))
                 (log EWlanActive (log (EPrint "Connecting to WiFi...") s))).
    assert (Hc0 : clock_ms s0 = clock_ms s) by reflexivity.
    destruct (wifi_wait_polls wifi_fuel (clock_ms s0 / 1000) s0)
      as (b & s' & k & Hrun & Hst & Hc & Htr & Hpolls & Hb).
    { rewrite Hc0. unfold wifi_fuel. simpl Z.of_nat. lia. }
    { rewrite Hc0. lia. }
    rewrite Hrun. cbv beta iota.
    rewrite Hc0 in Hc, Hpolls, Hb.
    assert (Hs0 : steady s s0) by (subst s0; steady_chain).
    destruct b.
    + plumbing. exists true. eexists. exists k. split; [reflexivity|].
      split.
      { eapply steady_trans; [exact Hs0|].
        eapply steady_trans; [exact Hst|]. steady_chain. }
      split; [exact Hc|]. split; [exact Hpolls|].
      rewrite <- Hc. split; [exact Hb | reflexivity].
    + unfold ret. exists false, s', k. split; [reflexivity|].
      split; [eapply steady_trans; eassumption|].
      split; [exact Hc|]. split; [exact Hpolls|].
      destruct Hb as (Hdown & Hout & Hw). rewrite <- Hc.
      split; [exact Hdown|]. split; [exact Hout|].
      assert (Hk : (31 <= k <= 32)%nat).
      { pose proof (whole_seconds (clock_ms s')) as Hsec'.
        assert (Hlo : (31 <= k)%nat) by lia.
        split; [exact Hlo|].
        destruct (Hpolls (k - 1)%nat ltac:(lia)) as [_ Hprev].
        pose proof (whole_seconds
                      (clock_ms s + 500 * Z.of_nat (k - 1))) as Hsp.
        lia. }
      split; [exact Hk|]. split; [exact Hw|].
      rewrite Htr. subst s0. rewrite !trace_log.
      rewrite <- !app_assoc. reflexivity.
Qed.

End Program.

End FirmwareFacts.

(* ------------------------------------------------------------------ *)
(** ** The session manager: [mqtt_connect] and [mqtt_publish] *)

Import Json Firmware FirmwareFacts.
Local Open Scope Z_scope.

(** Count handshakes and sends on a trace that extends a given one. *)
Ltac count_events :=
  rewrite ?handshakes_app, ?sends_app;
  repeat match goal with
         | |- context [handshakes (trace ?s)] =>
             generalize (handshakes (trace s)); intro
         | |- context [sends (trace ?s)] =>
             generalize (sends (trace s)); intro
         end;
  cbv [handshakes sends filter is_handshake is_send Datatypes.length app];
  lia.

(** C2, as stated, fails: with no client in place [mqtt_publish] does not
    refuse.  In a world where everything works it connects, sends and
    returns [True]; where the broker refuses, it returns [False] only after
    a handshake attempt. *)
Lemma C2_publish_refused_counterexample :
  mqtt_client (offline 0) = None
  /\ ~ publish_refused example_config calm_world "x" (offline 0)
  /\ ~ publish_refused example_config deaf_broker "x" (offline 0).
Proof.
  split; [reflexivity|].
  split; intros (s' & Hrun & Hh & Hs);
    rewrite mqtt_publish_eq in Hrun; inversion Hrun; subst s';
    vm_compute in Hh; discriminate.
Qed.

(** C2, amended.  Called with no client in place, [mqtt_publish] first makes
    one connect attempt.  If the handshake fails it returns [False], nothing
    is sent and the session stays without a client.  If the handshake
    succeeds the message is sent on the new session, and the call returns
    whether that send succeeded. *)
Theorem C2_publish_when_disconnected_connects_first
  (cfg : Config) (env : Env) (payload : string) (s : State) :
  mqtt_client s = None ->
  exists s',
    mqtt_publish cfg env payload s
    = Ok (connect_ok env (calls s) && publish_ok env (S (calls s))) s'
    /\ handshakes (trace s') = S (handshakes (trace s))
    /\ if connect_ok env (calls s) then
         exists tail,
           trace s'
           = (trace s ++ [EPrint "Connecting to AWS IoT MQTT...";
                          EMqttConnect true;
                          EPrint "MQTT connected";
                          EMqttPublish (MQTT_TOPIC cfg) payload
                            (publish_ok env (S (calls s)))] ++ tail)%list
           /\ sends tail = 0%nat /\ handshakes tail = 0%nat
       else
         trace s'
         = (trace s ++ [EPrint "Connecting to AWS IoT MQTT...";
                        EMqttConnect false;
                        EPrint "MQTT connection failed:"])%list
         /\ sends (trace s') = sends (trace s)
         /\ mqtt_client s' = None.
Proof.
  intros Hc. exists (after_publish cfg env payload s).
  rewrite mqtt_publish_eq. unfold publish_result. rewrite Hc.
  split; [reflexivity|].
  pose proof (trace_publish_offline cfg env payload s Hc) as T.
  destruct (connect_ok env (calls s)) eqn:Eok.
  - destruct (publish_ok env (S (calls s))) eqn:Ep; rewrite T.
    + split; [count_events|]. exists []. repeat split.
    + split; [count_events|].
      eexists. split; [reflexivity | split; reflexivity].
  - rewrite T. split; [count_events|]. split; [reflexivity|].
    split; [count_events|].
    unfold after_publish. rewrite Hc, Eok.
    now rewrite mqtt_client_after_connect, Eok.
Qed.

Lemma C2_publish_when_disconnected_connects_first_witness :
  exists s',
    mqtt_publish example_config deaf_broker "x" (offline 0) = Ok false s'
    /\ handshakes (trace s') = 1%nat
    /\ mqtt_client s' = None.
Proof.
  destruct (C2_publish_when_disconnected_connects_first
              example_config deaf_broker "x" (offline 0) eq_refl)
    as (s' & Hrun & Hh & Ht & Hs & Hc).
  exists s'. split; [exact Hrun|]. split; [exact Hh | exact Hc].
Defined.

(** C3, as stated, fails: [mqtt_connect] on a session that is up is not a
    no-op.  Even where the broker answers, it goes through a new handshake;
    where the broker refuses, it returns [False] and drops the client. *)
Lemma C3_connect_is_noop_counterexample :
  mqtt_client (online 0) <> None
  /\ ~ connect_is_noop example_config calm_world (online 0)
  /\ ~ connect_is_noop example_config deaf_broker (online 0).
Proof.
  split; [discriminate|].
  split; intros (s' & Hrun & Hh & Hc);
    rewrite mqtt_connect_eq in Hrun; inversion Hrun; subst s';
    vm_compute in Hh; discriminate.
Qed.

(** C3, amended.  Called while a client is in place, [mqtt_connect] builds no
    new client but runs one handshake on the existing one.  If the handshake
    succeeds it returns [True] and the same client stays in place; if it
    fails it returns [False] and the session is left without a client. *)
Theorem C3_connect_when_connected_dials_again
  (cfg : Config) (env : Env) (s : State) (c : MQTTClient) :
  mqtt_client s = Some c ->
  exists s',
    mqtt_connect cfg env s = Ok (connect_ok env (calls s)) s'
    /\ trace s'
       = (trace s ++ [EPrint "Connecting to AWS IoT MQTT...";
                      EMqttConnect (connect_ok env (calls s));
                      EPrint (connect_verdict (connect_ok env (calls s)))])%list
    /\ handshakes (trace s') = S (handshakes (trace s))
    /\ mqtt_client s' = if connect_ok env (calls s) then Some c else None.
Proof.
  intros Hc. exists (after_connect cfg env s).
  rewrite mqtt_connect_eq, trace_after_connect, mqtt_client_after_connect.
  unfold client_or_new. rewrite Hc.
  repeat split. count_events.
Qed.

Lemma C3_connect_when_connected_dials_again_witness :
  exists s',
    mqtt_connect example_config calm_world (online 0) = Ok true s'
    /\ handshakes (trace s') = 1%nat
    /\ mqtt_client s' = mqtt_client (online 0).
Proof.
  destruct (C3_connect_when_connected_dials_again
              example_config calm_world (online 0) _ eq_refl)
    as (s' & Hrun & Ht & Hh & Hc).
  exists s'. split; [exact Hrun|]. split; [exact Hh | exact Hc].
Defined.

(** C4.  Every failing session operation leaves the session without a
    client.  [mqtt_connect] and [mqtt_publish] always return; when
    [mqtt_connect] returns [False], [mqtt_client] is [None]; when
    [mqtt_publish] returns [False], [mqtt_client] is [None], and in particular
    a send that fails on a session that was up is followed by a disconnect
    attempt and by dropping the client.  The next [mqtt_publish] then has to
    start with a handshake, and sends nothing unless that handshake
    succeeds. *)
Theorem C4_failed_session_operation_leaves_disconnected
  (cfg : Config) (env : Env) (s : State) :
  (exists ok s',
      mqtt_connect cfg env s = Ok ok s'
      /\ (ok = false -> mqtt_client s' = None))
  /\ (forall payload, exists ok s',
        mqtt_publish cfg env payload s = Ok ok s'
        /\ (ok = false -> mqtt_client s' = None)
        /\ (mqtt_client s <> None -> publish_ok env (calls s) = false ->
            ok = false
            /\ trace s'
               = (trace s ++
                  [EMqttPublish (MQTT_TOPIC cfg) payload false;
                   EPrint "Publish failed, will try reconnect:";
                   EMqttDisconnect (disconnect_ok env (S (calls s)))])%list))
  /\ (mqtt_client s = None ->
      forall payload, exists tail,
        trace (final_state (mqtt_publish cfg env payload s))
        = (trace s ++ EPrint "Connecting to AWS IoT MQTT..."
                   :: EMqttConnect (connect_ok env (calls s)) :: tail)%list
        /\ (connect_ok env (calls s) = false -> sends tail = 0%nat)).
Proof.
  split; [|split].
  - exists (connect_ok env (calls s)), (after_connect cfg env s).
    split; [apply mqtt_connect_eq|].
    intros H. now rewrite mqtt_client_after_connect, H.
  - intros payload.
    exists (publish_result env s), (after_publish cfg env payload s).
    split; [apply mqtt_publish_eq|].
    split; [apply failed_publish_drops_client|].
    intros Hc Hp. unfold publish_result, after_publish.
    destruct (mqtt_client s) as [c|]; [|congruence].
    split; [exact Hp|]. now rewrite trace_after_send, Hp.
  - intros Hc payload. rewrite mqtt_publish_eq. simpl final_state.
    rewrite (trace_publish_offline cfg env payload s Hc).
    eexists. split; [reflexivity|].
    intros H. rewrite H. reflexivity.
Qed.

Lemma C4_failed_session_operation_leaves_disconnected_witness :
  (exists s',
      mqtt_publish example_config broken_pipe "x" (online 0) = Ok false s'
      /\ mqtt_client s' = None
      /\ trace s'
         = [EMqttPublish "devices/T1/telemetry" "x" false;
            EPrint "Publish failed, will try reconnect:";
            EMqttDisconnect true])
  /\ (exists tail,
        trace (final_state
                 (mqtt_publish example_config deaf_broker "x" (offline 0)))
        = EPrint "Connecting to AWS IoT MQTT..." :: EMqttConnect false :: tail
        /\ sends tail = 0%nat).
Proof.
  split.
  - destruct (C4_failed_session_operation_leaves_disconnected
                example_config broken_pipe (online 0))
      as (_ & Hpub & _).
    destruct (Hpub "x") as (ok & s' & Hrun & Hnone & Hsend).
    destruct Hsend as [Hok Htr]; [discriminate | reflexivity |].
    subst ok. exists s'.
    split; [exact Hrun|]. split; [now apply Hnone | exact Htr].
  - destruct (C4_failed_session_operation_leaves_disconnected
                example_config deaf_broker (offline 0))
      as (_ & _ & Hnext).
    destruct (Hnext eq_refl "x") as (tail & Htr & Hs).
    exists tail. split; [exact Htr | now apply Hs].
Defined.

(* ------------------------------------------------------------------ *)
(** ** The supervisor loop *)

(** C5.  A round of the loop that found the flag set and whose
    [measure_and_publish] returned [False] continues with exactly: the
    message, one sleep of five seconds, one call of [mqtt_connect] (one
    handshake), and then the 100 ms poll sleep, whether or not that
    handshake succeeded.  A round whose cycle returned [True] goes straight
    to the poll sleep. *)
Theorem C5_backoff_is_one_sleep_and_one_connect
  (cfg : Config) (env : Env) (s s1 : State) (published : bool) :
  measure_pending s = true ->
  measure_and_publish cfg env (work_start s) = Ok published s1 ->
  exists s2,
    loop_iteration cfg env s = Ok tt s2
    /\ trace s2
       = (trace s1 ++
          (if published then []
           else [EPrint "Attempting reconnect in 5s...";
                 ESleep 5000;
                 EPrint "Connecting to AWS IoT MQTT...";
                 EMqttConnect (connect_ok env (calls s1));
                 EPrint (connect_verdict (connect_ok env (calls s1)))]) ++
          [ESleep 100])%list
    /\ clock_ms s2
       = clock_ms s1
         + (if published then 0 else 5000 + Z.of_N (cost env (calls s1)))
         + 100.
Proof.
  intros Hp Hcycle. rewrite measure_and_publish_eq in Hcycle.
  injection Hcycle as Hres Hs1. subst published s1.
  exists (after_iteration cfg env s).
  split; [apply loop_iteration_eq|].
  rewrite (trace_after_iteration cfg env s Hp).
  rewrite (clock_ms_after_iteration cfg env s Hp).
  split; reflexivity.
Qed.

Lemma C5_backoff_is_one_sleep_and_one_connect_witness :
  exists s1 s2,
    measure_and_publish example_config broken_pipe (work_start (online 0))
    = Ok false s1
    /\ loop_iteration example_config broken_pipe (online 0) = Ok tt s2
    /\ trace s2
       = (trace s1 ++ [EPrint "Attempting reconnect in 5s...";
                       ESleep 5000;
                       EPrint "Connecting to AWS IoT MQTT...";
                       EMqttConnect true;
                       EPrint "MQTT connected";
                       ESleep 100])%list.
Proof.
  exists (after_cycle example_config broken_pipe (work_start (online 0))).
  destruct (C5_backoff_is_one_sleep_and_one_connect
              example_config broken_pipe (online 0) _ false
              eq_refl (measure_and_publish_eq _ _ _))
    as (s2 & Hrun & Htr & _).
  exists s2.
  split; [exact (measure_and_publish_eq _ _ _)|].
  split; [exact Hrun | exact Htr].
Defined.

(** C1, what the code does.  When the sensor read fails,
    [measure_and_publish] returns [False] having sent nothing, made no
    handshake and left the session as it was.  The loop, however, treats this
    [False] as any other: it sleeps the five seconds of the backoff and calls
    [mqtt_connect], which runs a handshake, before its next poll. *)
Theorem C1_sensor_failure_also_runs_backoff
  (cfg : Config) (env : Env) (s : State) :
  measure_pending s = true ->
  sensor env (calls s) = None ->
  (exists s1,
      measure_and_publish cfg env (work_start s) = Ok false s1
      /\ trace s1
         = (trace s ++ [ESensorMeasure false;
                        EPrint "Sensor read failed:"])%list
      /\ sends (trace s1) = sends (trace s)
      /\ handshakes (trace s1) = handshakes (trace s)
      /\ mqtt_client s1 = mqtt_client s)
  /\ (exists s2,
        loop_iteration cfg env s = Ok tt s2
        /\ trace s2
           = (trace s ++
              [ESensorMeasure false;
               EPrint "Sensor read failed:";
               EPrint "Attempting reconnect in 5s...";
               ESleep 5000;
               EPrint "Connecting to AWS IoT MQTT...";
               EMqttConnect (connect_ok env (S (calls s)));
               EPrint (connect_verdict (connect_ok env (S (calls s))));
               ESleep 100])%list
        /\ handshakes (trace s2) = S (handshakes (trace s))).
Proof.
  intros Hp Hs.
  destruct (trace_failed_read cfg env (work_start s) Hs)
    as (Htr & Hcl & Hres & Hcalls).
  assert (Hcycle : measure_and_publish cfg env (work_start s)
                   = Ok false (after_cycle cfg env (work_start s)))
    by (rewrite measure_and_publish_eq, Hres; reflexivity).
  split.
  - exists (after_cycle cfg env (work_start s)).
    split; [exact Hcycle|]. rewrite Htr, Hcl. simpl trace.
    repeat split; count_events.
  - exists (after_iteration cfg env s).
    split; [apply loop_iteration_eq|].
    rewrite (trace_after_iteration cfg env s Hp), Hres, Htr, Hcalls.
    simpl trace. simpl calls. rewrite <- !app_assoc.
    split; [reflexivity | count_events].
Qed.

Lemma C1_sensor_failure_also_runs_backoff_witness :
  exists s2,
    loop_iteration example_config dead_sensor (online 0) = Ok tt s2
    /\ trace s2
       = [ESensorMeasure false;
          EPrint "Sensor read failed:";
          EPrint "Attempting reconnect in 5s...";
          ESleep 5000;
          EPrint "Connecting to AWS IoT MQTT...";
          EMqttConnect true;
          EPrint "MQTT connected";
          ESleep 100]
    /\ handshakes (trace s2) = 1%nat.
Proof.
  destruct (C1_sensor_failure_also_runs_backoff
              example_config dead_sensor (online 0) eq_refl eq_refl)
    as (_ & s2 & Hrun & Htr & Hh).
  exists s2. split; [exact Hrun|]. split; [exact Htr | exact Hh].
Defined.

(** C10.  In a round that finds the flag set, the flag is cleared before the
    work begins: [measure_and_publish] starts in a state whose flag is
    [False].  Nothing after that point clears it, so at the end of the round
    the flag is set exactly if the timer fired during the round.  A flag set
    at the end of the round is serviced by the next round, which starts a
    new sensor read.  In particular a cycle that failed always ends with
    the flag set when the period is at most the five seconds of the
    backoff. *)
Theorem C10_tick_during_work_is_serviced_next_round
  (cfg : Config) (env : Env) (s s1 : State) (published : bool) :
  measure_pending s = true ->
  measure_and_publish cfg env (work_start s) = Ok published s1 ->
  measure_pending (work_start s) = false
  /\ exists s',
      loop_iteration cfg env s = Ok tt s'
      /\ (exists tail, trace s' = (trace s1 ++ tail)%list)
      /\ measure_pending s' = fired (timer s) (clock_ms s) (clock_ms s')
      /\ (measure_pending s' = true ->
          exists s'' r tail,
            loop_iteration cfg env s' = Ok tt s''
            /\ trace s'' = (trace s' ++ ESensorMeasure r :: tail)%list)
      /\ (published = false ->
          forall a p, timer s = Some (a, p) -> 0 < p <= 5000 ->
                      measure_pending s' = true).
Proof.
  intros Hp Hcycle. rewrite measure_and_publish_eq in Hcycle.
  injection Hcycle as Hres Hs1. subst published s1.
  split; [reflexivity|].
  exists (after_iteration cfg env s).
  assert (St : steady (work_start s) (after_iteration cfg env s)).
  { unfold after_iteration. rewrite Hp.
    eapply steady_trans; [apply steady_after_service|]. steady_chain. }
  destruct St as (_ & Hclock & Hflag & _ & _).
  simpl in Hflag. simpl in Hclock.
  split; [apply loop_iteration_eq|].
  split; [rewrite (trace_after_iteration cfg env s Hp); eexists; reflexivity|].
  split; [exact Hflag|].
  split.
  - intros Hp'.
    destruct (trace_after_cycle_head cfg env
                (work_start (after_iteration cfg env s))) as (r & tl & E).
    exists (after_iteration cfg env (after_iteration cfg env s)), r.
    eexists. split; [apply loop_iteration_eq|].
    rewrite (trace_after_iteration cfg env _ Hp'), E. simpl trace.
    rewrite <- app_assoc. simpl. reflexivity.
  - intros Hfail a p Htm Hper. rewrite Hflag, Htm.
    pose proof (clock_ms_after_iteration cfg env s Hp) as Hc.
    rewrite Hfail in Hc.
    destruct (steady_after_cycle cfg env (work_start s)) as (_ & Hc1 & _).
    simpl in Hc1.
    pose proof (N2Z.is_nonneg
                  (cost env (calls (after_cycle cfg env (work_start s))))).
    replace (clock_ms (after_iteration cfg env s))
      with (clock_ms s + (clock_ms (after_iteration cfg env s) - clock_ms s))
      by lia.
    apply fired_full_period; lia.
Qed.

Lemma C10_tick_during_work_is_serviced_next_round_witness :
  exists s' s'' r tail,
    loop_iteration example_config broken_pipe (online 0) = Ok tt s'
    /\ measure_pending s' = true
    /\ loop_iteration example_config broken_pipe s' = Ok tt s''
    /\ trace s'' = (trace s' ++ ESensorMeasure r :: tail)%list.
Proof.
  destruct (C10_tick_during_work_is_serviced_next_round
              example_config broken_pipe (online 0) _ false
              eq_refl (measure_and_publish_eq _ _ _))
    as (_ & s' & Hrun & _ & _ & Hnext & Hfail).
  assert (Hset : measure_pending s' = true).
  { apply (Hfail eq_refl 0 5000); [reflexivity | lia]. }
  destruct (Hnext Hset) as (s'' & r & tail & Hrun' & Htr).
  exists s', s'', r, tail.
  split; [exact Hrun|]. split; [exact Hset|]. split; [exact Hrun' | exact Htr].
Defined.

(* ------------------------------------------------------------------ *)
(** ** The wire payload and its topic *)

(** C6.  A cycle that returns [True] ends with one send, to the topic
    devices/THING_NAME/telemetry, of a text that reads back as a map with
    exactly four entries: thing (the thing name), timestamp (the whole
    seconds of the clock when the reading was taken), temperature_C and
    humidity_pct (the reading).  For thing T1, timestamp 1700000000,
    temperature 24 and humidity 55 this is the map that the text of scenario
    E denotes, sent to devices/T1/telemetry. *)
Theorem C6_published_payload_and_topic
  (cfg : Config) (env : Env) (s s' : State) :
  measure_and_publish cfg env s = Ok true s' ->
  exists temp hum timestamp front body d,
    sensor env (calls s) = Some (temp, hum)
    /\ timestamp = (clock_ms s + Z.of_N (cost env (calls s))) / 1000
    /\ trace s'
       = (front ++
          [EMqttPublish ("devices/" ++ THING_NAME cfg ++ "/telemetry")
                        body true;
           EPrint "Published OK"])%list
    /\ sends front = sends (trace s)
    /\ json_loads body = Some d
    /\ List.length d = 4%nat
    /\ dict_get "thing" d = Some (JStr (THING_NAME cfg))
    /\ dict_get "timestamp" d = Some (JInt timestamp)
    /\ dict_get "temperature_C" d = Some (JInt temp)
    /\ dict_get "humidity_pct" d = Some (JInt hum)
    /\ (THING_NAME cfg = "T1" -> timestamp = 1700000000 ->
        temp = 24 -> hum = 55 ->
        json_loads scenario_E_text = Some d
        /\ "devices/" ++ THING_NAME cfg ++ "/telemetry"
           = "devices/T1/telemetry").
Proof.
  intros Hrun. rewrite measure_and_publish_eq in Hrun.
  injection Hrun as Hres Hs'. subst s'.
  unfold cycle_result in Hres. unfold after_cycle.
  destruct (sensor env (calls s)) as [[temp hum]|] eqn:Es; [|discriminate].
  cbv zeta. rewrite Hres.
  destruct (trace_published cfg env
              (payload_json cfg (measured env s) (temp, hum))
              (announced cfg env s (temp, hum)) Hres)
    as (front & Htr & Hsends).
  exists temp, hum, (clock_ms (measured env s) / 1000), front,
    (payload_json cfg (measured env s) (temp, hum)),
    (make_payload (THING_NAME cfg) (clock_ms (measured env s) / 1000)
                  temp hum).
  split; [reflexivity|].
  split; [unfold measured; rewrite Es; fields; reflexivity|].
  split; [rewrite trace_log, Htr, <- app_assoc; reflexivity|].
  split.
  { rewrite Hsends. unfold announced. rewrite trace_log.
    destruct (trace_measured env s) as [ok ->].
    rewrite <- app_assoc. count_events. }
  split; [apply payload_reads_back|].
  repeat (split; [reflexivity|]).
  intros -> -> -> ->. split; reflexivity.
Qed.

Lemma C6_published_payload_and_topic_witness :
  exists s' front body,
    measure_and_publish example_config calm_world
      (set_clock_ms 1700000000000 (online 0)) = Ok true s'
    /\ trace s'
       = (front ++ [EMqttPublish "devices/T1/telemetry" body true;
                    EPrint "Published OK"])%list
    /\ json_loads body = json_loads scenario_E_text.
Proof.
  exists (after_cycle example_config calm_world
            (set_clock_ms 1700000000000 (online 0))).
  destruct (C6_published_payload_and_topic
              example_config calm_world
              (set_clock_ms 1700000000000 (online 0)) _
              (measure_and_publish_eq _ _ _))
    as (temp & hum & timestamp & front & body & d & Hs & Hts & Htr & _
        & Hload & _ & _ & _ & _ & _ & HE).
  injection Hs as <- <-.
  destruct (HE eq_refl Hts eq_refl eq_refl) as [HEload _].
  exists front, body.
  split; [exact (measure_and_publish_eq _ _ _)|].
  split; [exact Htr|]. now rewrite Hload, HEload.
Defined.

(** C7.  For every thing name, timestamp, temperature and humidity,
    writing the payload with [json.dumps] and reading the text back gives a
    map whose temperature_C, humidity_pct and timestamp are the integers
    that were written (and whose thing is the name that was written). *)
Theorem C7_payload_round_trip (thing : string) (timestamp temp hum : Z) :
  exists d,
    json_loads (json_dumps (make_payload thing timestamp temp hum)) = Some d
    /\ dict_get "temperature_C" d = Some (JInt temp)
    /\ dict_get "humidity_pct" d = Some (JInt hum)
    /\ dict_get "timestamp" d = Some (JInt timestamp)
    /\ dict_get "thing" d = Some (JStr thing).
Proof.
  exists (make_payload thing timestamp temp hum).
  split; [apply payload_reads_back|]. repeat split.
Qed.

(* ------------------------------------------------------------------ *)
(** ** Start-up and the only restart *)

(** C8, as stated, fails: 15 seconds without a link are not enough for the
    restart.  With the link down from the call until 15 seconds later and
    up just after, the poll taken at 15.0 s does not time out (15 whole
    seconds is not more than 15), the poll at 15.5 s finds the link up, and
    [main] goes on to its loop. *)
Lemma C8_restart_on_15s_outage_counterexample :
  ~ restart_on_15s_outage example_config late_link 0 (initial 0).
Proof.
  intros H. destruct H as [s' Hrun].
  - intros t Ht. simpl in Ht. apply Z.ltb_ge. lia.
  - vm_compute in Hrun. discriminate.
Qed.

(** C8, amended.  [connect_wifi] polls the link every half second and always
    returns, at some poll [k]; every poll before it found the link down
    with at most 15 whole seconds elapsed.  It returns [False] exactly when
    poll [k] finds the link still down with more than 15 whole seconds
    elapsed, which happens at the poll 15.5 or 16 seconds after the call;
    the timeout has then been logged and [main] logs that it cannot
    continue, sleeps ten seconds and resets the device.  It returns [True]
    when poll [k] finds the link up, also after more than 15 seconds, and
    [main] then never resets and never ends in an exception, whatever the
    sensor, the broker and the transport do.  A link that stays down for
    16.5 seconds always leads to the restart, and [SystemReset] is the only
    way [main] can end abnormally. *)
Theorem C8_restart_exactly_when_every_poll_finds_link_down
  (cfg : Config) (env : Env) (n : nat) (s0 : State) :
  (exists linked s1 k,
      connect_wifi cfg env s0 = Ok linked s1
      /\ clock_ms s1 = poll_time s0 k
      /\ (forall j, (j < k)%nat ->
                    link_up env (poll_time s0 j) = false
                    /\ seconds_waited s0 (poll_time s0 j) <= 15)
      /\ if linked then
           link_up env (poll_time s0 k) = true
           /\ exists outcome s',
               main cfg env n s0 = Ok outcome s'
               /\ resets (trace s') = resets (trace s0)
         else
           link_up env (poll_time s0 k) = false
           /\ 15 < seconds_waited s0 (poll_time s0 k)
           /\ (31 <= k <= 32)%nat
           /\ trace s1
              = (trace s0 ++
                 [EPrint "Connecting to WiFi..."; EWlanActive;
                  EWlanConnect (WIFI_SSID cfg) (WIFI_PASS cfg)] ++
                 repeat (ESleep 500) k ++
                 [EPrint "WiFi connect timed out"])%list
           /\ exists s',
               main cfg env n s0 = Raise SystemReset s'
               /\ trace s'
                  = (trace s1 ++
                     [EPrint "Cannot continue without WiFi. Rebooting in 10s.";
                      ESleep 10000; EReset])%list)
  /\ ((forall t, clock_ms s0 <= t < clock_ms s0 + 16500 ->
                 link_up env t = false) ->
      exists s', main cfg env n s0 = Raise SystemReset s'
                 /\ resets (trace s') = S (resets (trace s0)))
  /\ (forall e s', main cfg env n s0 = Raise e s' -> e = SystemReset).
Proof.
  destruct (connect_wifi_polls cfg env s0)
    as (b & s1 & k & Hwifi & Hst & Hclock & Hpolls & Hb).
  destruct (main_spec cfg env n s0) as (b' & s1' & Hwifi' & Hmain).
  rewrite Hwifi in Hwifi'. injection Hwifi' as <- <-.
  split; [|split].
  - exists b, s1, k. split; [exact Hwifi|]. split; [exact Hclock|].
    split; [exact Hpolls|].
    destruct b.
    + destruct Hb as [Hup _]. split; [exact Hup | exact Hmain].
    + destruct Hb as (Hdown & Hout & Hk & _ & Htr).
      repeat (split; [assumption|]). exact Hmain.
  - intros Hd. destruct b.
    + destruct Hb as [Hup _]. rewrite Hd in Hup; [discriminate|].
      unfold poll_time.
      assert (Hk : (k <= 32)%nat).
      { destruct (Nat.le_gt_cases k 32) as [Hle|Hgt]; [exact Hle|].
        destruct (Hpolls 32%nat Hgt) as [_ Hw].
        unfold seconds_waited, poll_time in Hw.
        pose proof (whole_seconds (clock_ms s0)).
        pose proof (whole_seconds (clock_ms s0 + 500 * Z.of_nat 32)).
        lia. }
      lia.
    + destruct Hmain as (s' & Hrun & Htr). exists s'.
      split; [exact Hrun|].
      destruct Hst as (_ & _ & _ & Hr & _).
      rewrite Htr. unfold resets in *.
      rewrite filter_app, length_app, Hr. simpl. lia.
  - intros e s' Hrun. destruct b.
    + destruct Hmain as (o & s2 & Hok & _). congruence.
    + destruct Hmain as (s2 & Hreset & _). congruence.
Qed.

Lemma C8_restart_exactly_when_every_poll_finds_link_down_witness :
  exists s',
    main example_config no_link 3 (initial 0) = Raise SystemReset s'
    /\ resets (trace s') = 1%nat.
Proof.
  destruct (C8_restart_exactly_when_every_poll_finds_link_down
              example_config no_link 3 (initial 0))
    as (_ & Hdown & _).
  destruct (Hdown (fun t _ => eq_refl)) as (s' & Hrun & Hr).
  exists s'. split; [exact Hrun | exact Hr].
Defined.

(* ================================================================== *)
(** * Further properties of the firmware *)

Module FirmwareMore.
Import Json Firmware FirmwareFacts.
Local Open Scope Z_scope.
Local Open Scope fw_scope.

(** *** Client ids *)

Lemma byte_of_hex_digits (b : ascii) :
  byte_of_hex (hex_digit (nat_of_ascii b / 16))
              (hex_digit (nat_of_ascii b mod 16)) = Some b
  /\ is_hex_char (hex_digit (nat_of_ascii b / 16)) = true
  /\ is_hex_char (hex_digit (nat_of_ascii b mod 16)) = true.
Proof. destruct b as [[] [] [] [] [] [] [] []]; repeat split. Qed.

Lemma unhexlify_hexlify (bytes : string) :
  unhexlify (hexlify bytes) = Some bytes.
Proof.
  induction bytes as [|b rest IH]; [reflexivity|].
  cbn [hexlify unhexlify].
  destruct (byte_of_hex_digits b) as (-> & _ & _). now rewrite IH.
Qed.

Lemma all_hex_hexlify (bytes : string) : all_hex (hexlify bytes) = true.
Proof.
  induction bytes as [|b rest IH]; [reflexivity|].
  cbn [hexlify all_hex].
  destruct (byte_of_hex_digits b) as (_ & -> & ->). exact IH.
Qed.

Lemma length_hexlify (bytes : string) :
  String.length (hexlify bytes) = (2 * String.length bytes)%nat.
Proof.
  induction bytes as [|b rest IH]; [reflexivity|].
  cbn [hexlify String.length]. rewrite IH. lia.
Qed.

(** *** Topics *)

Lemma append_cancel_r (a b t : string) :
  (a ++ t)%string = (b ++ t)%string -> a = b.
Proof.
  revert b. induction a as [|c a IH]; intros b H.
  - destruct b as [|d b]; [reflexivity|].
    apply (f_equal String.length) in H.
    simpl in H. rewrite JsonFacts.length_append in H. lia.
  - destruct b as [|d b].
    + apply (f_equal String.length) in H.
      simpl in H. rewrite JsonFacts.length_append in H. lia.
    + simpl in H. injection H as -> H. f_equal. now apply IH.
Qed.

(** *** Counting sensor reads and deliveries *)

Lemma measures_app (a b : list Event) :
  measures (a ++ b) = (measures a + measures b)%nat.
Proof. unfold measures. now rewrite filter_app, length_app. Qed.

Lemma deliveries_app (a b : list Event) :
  deliveries (a ++ b) = (deliveries a + deliveries b)%nat.
Proof. unfold deliveries. now rewrite filter_app, length_app. Qed.

(** Count reads, deliveries, sends and handshakes on a trace that extends
    given ones. *)
Ltac tally :=
  repeat (rewrite ?trace_advance;
          cbn [trace log set_wifi_connected set_mqtt_client set_dht_buf
               set_last_measure_time set_measure_pending set_timer
               set_clock_ms bump_calls]);
  rewrite ?measures_app, ?deliveries_app, ?handshakes_app, ?sends_app;
  repeat match goal with
         | |- context [measures (trace ?s)] =>
             generalize (measures (trace s)); intro
         | |- context [deliveries (trace ?s)] =>
             generalize (deliveries (trace s)); intro
         | |- context [handshakes (trace ?s)] =>
             generalize (handshakes (trace s)); intro
         | |- context [sends (trace ?s)] =>
             generalize (sends (trace s)); intro
         end;
  cbv [measures deliveries handshakes sends filter is_measure is_delivery
       is_handshake is_send Datatypes.length app andb];
  try lia.

Lemma last_measure_time_advance d s :
  last_measure_time (advance d s) = last_measure_time s.
Proof. unfold advance. now destruct (fired _ _ _). Qed.

(** Push the field readers through logging, setters and time passing. *)
Ltac proj :=
  repeat (cbn [trace timer calls mqtt_client measure_pending clock_ms
               wifi_connected last_measure_time dht_buf log bump_calls
               set_timer set_wifi_connected set_mqtt_client set_dht_buf
               set_last_measure_time set_measure_pending set_clock_ms];
          rewrite ?trace_advance, ?timer_advance, ?calls_advance,
            ?mqtt_client_advance, ?clock_ms_advance, ?wifi_connected_advance,
            ?measure_pending_advance, ?last_measure_time_advance).

Section Program.

Variable cfg : Config.
Variable env : Env.

(** *** How long [connect_wifi] blocks *)

Lemma wifi_wait_bound (fuel : nat) (start : Z) :
  forall s,
    (start + 16) * 1000 - clock_ms s <= 500 * (Z.of_nat fuel - 1) ->
    clock_ms s < (start + 16) * 1000 + 500 ->
    exists b s' k,
      wifi_wait env fuel start s = Ok b s'
      /\ clock_ms s' = clock_ms s + 500 * Z.of_nat k
      /\ clock_ms s' < (start + 16) * 1000 + 500
      /\ (if b then wifi_connected s' = wifi_connected s
                    /\ link_up env (clock_ms s') = true
          else wifi_connected s' = false)
      /\ mqtt_client s' = mqtt_client s
      /\ measures (trace s') = measures (trace s).
Proof.
  induction fuel as [|fuel IH]; intros s Hfuel Hclock.
  - simpl Z.of_nat in Hfuel. lia.
  - cbn [wifi_wait]. plumbing.
    destruct (link_up env (clock_ms s)) eqn:Eup.
    + exists true, s, O. repeat split; try assumption. simpl. lia.
    + unfold wifi_timeout. rewrite Z.gtb_ltb.
      pose proof (whole_seconds (clock_ms s)) as Hsec.
      destruct (Z.ltb_spec 15 (clock_ms s / 1000 - start)) as [Hout|Hin].
      * exists false. eexists. exists O. split; [reflexivity|].
        split; [cbn; lia|]. split; [cbn; lia|]. split; [reflexivity|].
        split; [reflexivity|]. tally.
      * destruct (IH (advance 500 (log (ESleep 500) s)))
          as (b & s' & k & Hrun & Hc & Hlt & Hb & Hm & Hn).
        { rewrite clock_ms_advance. cbn [clock_ms log]. lia. }
        { rewrite clock_ms_advance. cbn [clock_ms log]. lia. }
        exists b, s', (S k). split; [exact Hrun|].
        rewrite clock_ms_advance in Hc. cbn [clock_ms log] in Hc.
        rewrite wifi_connected_advance in Hb. cbn [wifi_connected log] in Hb.
        rewrite mqtt_client_advance in Hm. cbn [mqtt_client log] in Hm.
        rewrite trace_advance, trace_log in Hn.
        split; [lia|]. split; [exact Hlt|]. split; [exact Hb|].
        split; [exact Hm|].
        rewrite Hn. tally.
Qed.

Lemma connect_wifi_bound (s : State) :
  exists b s' k,
    connect_wifi cfg env s = Ok b s'
    /\ wifi_connected s' = b
    /\ clock_ms s' = clock_ms s + 500 * Z.of_nat k
    /\ (k <= 32)%nat
    /\ (b = true -> link_up env (clock_ms s') = true)
    /\ (link_up env (clock_ms s) = true ->
        b = true /\ k = O
        /\ trace s' = (trace s ++ [EPrint "WiFi connected, IP:"])%list)
    /\ mqtt_client s' = mqtt_client s
    /\ measures (trace s') = measures (trace s).
Proof.
  pose proof (whole_seconds (clock_ms s)) as Hsec.
  unfold connect_wifi. step_bind. unfold wlan_isconnected at 1, get at 1.
  cbv beta iota.
  destruct (link_up env (clock_ms s)) eqn:Eup; cbn [negb]; step_bind.
  - unfold ret at 1. cbv beta iota. plumbing.
    exists true. eexists. exists O. split; [reflexivity|].
    split; [reflexivity|]. split; [cbn; lia|]. split; [lia|].
    split; [intros _; exact Eup|]. split; [intros _; repeat split|].
    split; [reflexivity|]. tally.
  - step_bind. unfold print at 1, modify at 1. cbv beta iota.
    step_bind. unfold modify at 1. cbv beta iota.
    step_bind. unfold modify at 1. cbv beta iota.
    step_bind. unfold time_time at 1, get at 1. cbv beta iota.
    set (s0 := log (EWlanConnect (WIFI_SSID cfg) (WIFI_PASS cfg))
                 (log EWlanActive (log (EPrint "Connecting to WiFi...") s))).
    destruct (wifi_wait_bound wifi_fuel (clock_ms s0 / 1000) s0)
      as (b & s' & k & Hrun & Hc & Hlt & Hb & Hm & Hn).
    { subst s0. simpl clock_ms. unfold wifi_fuel. simpl Z.of_nat. lia. }
    { subst s0. simpl clock_ms. lia. }
    rewrite Hrun. cbv beta iota.
    assert (Hk : (k <= 32)%nat) by (subst s0; simpl clock_ms in *; lia).
    assert (Hn0 : measures (trace s0) = measures (trace s)).
    { subst s0. tally. }
    destruct b.
    + plumbing. exists true. eexists. exists k. split; [reflexivity|].
      destruct Hb as [_ Hup].
      split; [reflexivity|]. split; [exact Hc|]. split; [exact Hk|].
      split; [intros _; exact Hup|]. split; [discriminate|].
      split; [exact Hm|].
      cbn [trace log set_wifi_connected]. rewrite measures_app, Hn, Hn0.
      tally.
    + unfold ret. exists false, s', k. split; [reflexivity|].
      split; [exact Hb|]. split; [exact Hc|]. split; [exact Hk|].
      split; [discriminate|]. split; [discriminate|].
      split; [exact Hm | congruence].
Qed.

(** *** The events of a whole round, case by case *)

Lemma announced_facts (s : State) (r : Z * Z) :
  sensor env (calls s) = Some r ->
  mqtt_client (announced cfg env s r) = mqtt_client s
  /\ calls (announced cfg env s r) = S (calls s)
  /\ payload_json cfg (measured env s) r
     = json_dumps (make_payload (THING_NAME cfg)
                     ((clock_ms s + Z.of_N (cost env (calls s))) / 1000)
                     (fst r) (snd r))
  /\ trace (announced cfg env s r)
     = (trace s ++
        [ESensorMeasure true;
         EPrint ("Publishing: " ++ payload_json cfg (measured env s) r)])%list.
Proof.
  intros Hs. unfold announced, payload_json, measured. rewrite Hs. fields.
  rewrite <- !app_assoc. repeat split.
Qed.

Lemma calls_after_send (payload : string) (u : State) :
  calls (after_send cfg env payload u)
  = if publish_ok env (calls u) then S (calls u) else S (S (calls u)).
Proof.
  unfold after_send. destruct (publish_ok env (calls u)); fields; reflexivity.
Qed.

(** The events of a serviced round whose sensor read succeeded, in terms of
    the events of its [mqtt_publish]. *)
Lemma trace_round_read_ok (s : State) (r : Z * Z) :
  measure_pending s = true ->
  sensor env (calls s) = Some r ->
  let w := work_start s in
  let body := payload_json cfg (measured env w) r in
  let p := after_publish cfg env body (announced cfg env w r) in
  let delivered := publish_result env (announced cfg env w r) in
  trace (after_iteration cfg env s)
  = (trace p ++
     [EPrint (if delivered then "Published OK" else "Publish failed")] ++
     (if delivered then []
      else [EPrint "Attempting reconnect in 5s...";
            ESleep 5000;
            EPrint "Connecting to AWS IoT MQTT...";
            EMqttConnect (connect_ok env (calls p));
            EPrint (connect_verdict (connect_ok env (calls p)))]) ++
     [ESleep 100])%list
  /\ mqtt_client (after_iteration cfg env s)
     = (if delivered then mqtt_client p
        else if connect_ok env (calls p)
             then Some (make_mqtt_client cfg env) else None).
Proof.
  intros Hp Hs w body p delivered.
  assert (Hsw : sensor env (calls w) = Some r) by exact Hs.
  rewrite (trace_after_iteration cfg env s Hp).
  unfold after_iteration, after_service. rewrite Hp. cbv zeta.
  fold w. unfold cycle_result, after_cycle. rewrite Hsw. cbv zeta.
  fold body. fold p. fold delivered.
  rewrite mqtt_client_advance. cbn [mqtt_client log].
  destruct delivered eqn:Hd.
  - cbn [calls log]. rewrite trace_log, <- !app_assoc. split; reflexivity.
  - cbn [calls log]. rewrite trace_log, <- !app_assoc.
    split; [reflexivity|].
    unfold after_backoff. rewrite mqtt_client_after_connect.
    rewrite calls_advance. cbn [calls log].
    unfold client_or_new. rewrite mqtt_client_advance. cbn [mqtt_client log].
    assert (Hnone : mqtt_client p = None).
    { subst p. apply failed_publish_drops_client. exact Hd. }
    now rewrite Hnone.
Qed.

Lemma announced_at_work (s : State) (r : Z * Z) :
  sensor env (calls s) = Some r ->
  mqtt_client (announced cfg env (work_start s) r) = mqtt_client s
  /\ calls (announced cfg env (work_start s) r) = S (calls s)
  /\ payload_json cfg (measured env (work_start s)) r
     = json_dumps (make_payload (THING_NAME cfg)
                     ((clock_ms s + Z.of_N (cost env (calls s))) / 1000)
                     (fst r) (snd r))
  /\ trace (announced cfg env (work_start s) r)
     = (trace s ++
        [ESensorMeasure true;
         EPrint ("Publishing: "
                 ++ payload_json cfg (measured env (work_start s)) r)])%list.
Proof. intros Hs. exact (announced_facts (work_start s) r Hs). Qed.

(** The events of [mqtt_publish] on a session that is up. *)
Lemma publish_on_live_session (payload : string) (a : State) (c : MQTTClient) :
  mqtt_client a = Some c ->
  publish_result env a = publish_ok env (calls a)
  /\ trace (after_publish cfg env payload a)
     = (trace a ++
        if publish_ok env (calls a)
        then [EMqttPublish (MQTT_TOPIC cfg) payload true]
        else [EMqttPublish (MQTT_TOPIC cfg) payload false;
              EPrint "Publish failed, will try reconnect:";
              EMqttDisconnect (disconnect_ok env (S (calls a)))])%list
  /\ calls (after_publish cfg env payload a)
     = (if publish_ok env (calls a) then S (calls a) else S (S (calls a)))
  /\ mqtt_client (after_publish cfg env payload a)
     = (if publish_ok env (calls a) then Some c else None).
Proof.
  intros Hc. unfold publish_result, after_publish. rewrite Hc.
  rewrite trace_after_send, calls_after_send, mqtt_client_after_send, Hc.
  repeat split.
Qed.

(** The events of [mqtt_publish] with no session. *)
Lemma publish_without_session (payload : string) (a : State) :
  mqtt_client a = None ->
  publish_result env a
  = (connect_ok env (calls a) && publish_ok env (S (calls a)))
  /\ trace (after_publish cfg env payload a)
     = (trace a ++
        [EPrint "Connecting to AWS IoT MQTT...";
         EMqttConnect (connect_ok env (calls a));
         EPrint (connect_verdict (connect_ok env (calls a)))] ++
        if connect_ok env (calls a) then
          if publish_ok env (S (calls a))
          then [EMqttPublish (MQTT_TOPIC cfg) payload true]
          else [EMqttPublish (MQTT_TOPIC cfg) payload false;
                EPrint "Publish failed, will try reconnect:";
                EMqttDisconnect (disconnect_ok env (S (S (calls a))))]
        else [])%list
  /\ calls (after_publish cfg env payload a)
     = (if connect_ok env (calls a) then
          if publish_ok env (S (calls a))
          then S (S (calls a)) else S (S (S (calls a)))
        else S (calls a)).
Proof.
  intros Hc. split; [unfold publish_result; now rewrite Hc|].
  split; [now apply trace_publish_offline|].
  unfold after_publish. rewrite Hc.
  destruct (connect_ok env (calls a)).
  - now rewrite calls_after_send, calls_after_connect.
  - apply calls_after_connect.
Qed.

(** *** Counting through [mqtt_publish] and a cycle *)

Lemma counts_after_publish (payload : string) (a : State) :
  measures (trace (after_publish cfg env payload a)) = measures (trace a)
  /\ deliveries (trace (after_publish cfg env payload a))
     = (deliveries (trace a)
        + if publish_result env a then 1 else 0)%nat
  /\ (sends (trace (after_publish cfg env payload a))
      <= S (sends (trace a)))%nat.
Proof.
  destruct (mqtt_client a) as [c|] eqn:Ec.
  - destruct (publish_on_live_session payload a c Ec) as (-> & -> & _).
    destruct (publish_ok env (calls a)); repeat split; tally.
  - destruct (publish_without_session payload a Ec) as (-> & -> & _).
    destruct (connect_ok env (calls a));
      [destruct (publish_ok env (S (calls a)))|];
      repeat split; tally.
Qed.

Lemma counts_after_cycle (s : State) :
  measures (trace (after_cycle cfg env s)) = S (measures (trace s))
  /\ deliveries (trace (after_cycle cfg env s))
     = (deliveries (trace s)
        + if cycle_result cfg env s then 1 else 0)%nat
  /\ (sends (trace (after_cycle cfg env s)) <= S (sends (trace s)))%nat.
Proof.
  destruct (sensor env (calls s)) as [r|] eqn:Es.
  - destruct (announced_facts s r Es) as (_ & _ & _ & At).
    destruct (counts_after_publish
                (payload_json cfg (measured env s) r)
                (announced cfg env s r)) as (Pm & Pd & Ps).
    unfold after_cycle, cycle_result. rewrite Es. cbv zeta.
    rewrite At in Pm, Pd, Ps.
    rewrite trace_log, measures_app, deliveries_app, sends_app, Pm, Pd.
    split; [tally|]. split.
    + destruct (publish_result env (announced cfg env s r)); tally.
    + rewrite sends_app in Ps.
      remember (sends (trace (after_publish cfg env
                                (payload_json cfg (measured env s) r)
                                (announced cfg env s r)))) as x.
      remember (sends (trace s)) as y.
      unfold sends in Ps |- *. simpl in Ps |- *. lia.
  - destruct (trace_failed_read cfg env s Es) as (-> & _ & -> & _).
    repeat split; tally.
Qed.

(** *** [last_measure_time] is written only at the start of a serviced
    round *)

Lemma stamp_after_connect (s : State) :
  last_measure_time (after_connect cfg env s) = last_measure_time s.
Proof.
  unfold after_connect, dialled.
  destruct (connect_ok env (calls s)); simpl;
    rewrite last_measure_time_advance; reflexivity.
Qed.

Lemma stamp_after_send (payload : string) (u : State) :
  last_measure_time (after_send cfg env payload u) = last_measure_time u.
Proof.
  unfold after_send.
  destruct (publish_ok env (calls u)); simpl;
    rewrite !last_measure_time_advance; simpl;
    rewrite ?last_measure_time_advance; reflexivity.
Qed.

Lemma stamp_after_publish (payload : string) (s : State) :
  last_measure_time (after_publish cfg env payload s) = last_measure_time s.
Proof.
  unfold after_publish. destruct (mqtt_client s).
  - apply stamp_after_send.
  - destruct (connect_ok env (calls s)).
    + now rewrite stamp_after_send, stamp_after_connect.
    + apply stamp_after_connect.
Qed.

Lemma stamp_after_cycle (s : State) :
  last_measure_time (after_cycle cfg env s) = last_measure_time s.
Proof.
  assert (Hm : last_measure_time (measured env s) = last_measure_time s).
  { unfold measured. destruct (sensor env (calls s)); simpl;
      rewrite last_measure_time_advance; reflexivity. }
  unfold after_cycle, announced. destruct (sensor env (calls s)).
  - cbv zeta. cbn [last_measure_time log].
    rewrite stamp_after_publish. exact Hm.
  - exact Hm.
Qed.

Lemma stamp_after_iteration (s : State) :
  last_measure_time (after_iteration cfg env s)
  = if measure_pending s then clock_ms s / 1000 else last_measure_time s.
Proof.
  unfold after_iteration. rewrite last_measure_time_advance.
  cbn [last_measure_time log].
  destruct (measure_pending s); [|reflexivity].
  unfold after_service. cbv zeta.
  destruct (cycle_result cfg env (work_start s)).
  - now rewrite stamp_after_cycle.
  - unfold after_backoff. rewrite stamp_after_connect.
    rewrite last_measure_time_advance. cbn [last_measure_time log].
    now rewrite stamp_after_cycle.
Qed.

Lemma idle_round_eq (s : State) :
  measure_pending s = false ->
  after_iteration cfg env s = advance 100 (log (ESleep 100) s).
Proof. intros Hp. unfold after_iteration. now rewrite Hp. Qed.

(** *** The loop as a whole *)

(** What every round preserves holds when the loop is left or cut. *)
Lemma main_loop_invariant (P : State -> Prop) :
  (forall s, P s -> P (after_iteration cfg env s)) ->
  forall n i s, P s -> P (final_state (main_loop cfg env n i s)).
Proof.
  intros Hstep. induction n as [|n IH]; intros i s Hs.
  - exact Hs.
  - rewrite main_loop_S. destruct (ctrl_c env i); [exact Hs|].
    apply IH. now apply Hstep.
Qed.

(** The loop is cut still running, or left at a round where the user
    interrupted. *)
Lemma main_loop_cases (n : nat) :
  forall i s,
    (exists s', main_loop cfg env n i s = Ok tt s')
    \/ (exists s' j,
          main_loop cfg env n i s = Raise KeyboardInterrupt s'
          /\ (i <= j < i + n)%nat /\ ctrl_c env j = true).
Proof.
  induction n as [|n IH]; intros i s.
  - left. exists s. reflexivity.
  - rewrite main_loop_S. destruct (ctrl_c env i) eqn:Ec.
    + right. exists s, i. repeat split; [lia | lia | exact Ec].
    + destruct (IH (S i) (after_iteration cfg env s))
        as [[s' H]|(s' & j & H & Hj & Hc)].
      * left. now exists s'.
      * right. exists s', j. repeat split; [exact H | lia | lia | exact Hc].
Qed.

Lemma shutdown_eq (s : State) :
  shutdown env s = Ok tt (after_shutdown env s).
Proof.
  unfold shutdown, after_shutdown. plumbing.
  destruct s as [mp lt wc [c|] db tm ck k tr]; cbn; [|reflexivity].
  destruct (disconnect_ok env k); reflexivity.
Qed.

Lemma connect_wifi_up_eq (s : State) :
  link_up env (clock_ms s) = true ->
  connect_wifi cfg env s
  = Ok true (log (EPrint "WiFi connected, IP:") (set_wifi_connected true s)).
Proof.
  intros Hup. unfold connect_wifi. plumbing. now rewrite Hup.
Qed.

(** [main] once the link is up: arm the timer, try the broker, loop. *)
Lemma main_running_eq (n : nat) (s0 s1 : State) :
  connect_wifi cfg env s0 = Ok true s1 ->
  main cfg env n s0
  = match main_loop cfg env n 0%nat (loop_entry cfg env s1) with
    | Ok _ s' => Ok StillRunning s'
    | Raise KeyboardInterrupt s' =>
        Ok Stopped (after_shutdown env (log (EPrint "Stopped by user") s'))
    | Raise e s' => Raise e (after_shutdown env s')
    end.
Proof.
  intros Hwifi. unfold main, loop_entry.
  step_bind. rewrite Hwifi. cbv beta iota. cbn [negb].
  step_bind. unfold ret at 1. cbv beta iota.
  step_bind. unfold timer_init at 1, modify at 1. cbv beta iota.
  step_bind. unfold print at 1, modify at 1. cbv beta iota.
  step_bind. rewrite mqtt_connect_eq. cbv beta iota.
  destruct (main_loop cfg env n 0%nat _) as [[] s'|e s']; [reflexivity|].
  destruct e; unfold bind, print, modify, ret, raise;
    rewrite shutdown_eq; reflexivity.
Qed.

Lemma trace_grows_iteration (s : State) :
  exists tail, trace (after_iteration cfg env s) = (trace s ++ tail)%list.
Proof.
  destruct (measure_pending s) eqn:Hp.
  - destruct (steady_round cfg env s Hp) as (_ & _ & _ & _ & Hg). exact Hg.
  - rewrite (idle_round_eq s Hp), trace_advance, trace_log. now eexists.
Qed.

Lemma clock_grows_iteration (s : State) :
  clock_ms s + 100 <= clock_ms (after_iteration cfg env s).
Proof.
  unfold after_iteration. rewrite clock_ms_advance. cbn [clock_ms log].
  destruct (measure_pending s); [|lia].
  destruct (steady_after_service cfg env s) as (_ & Hc & _).
  simpl in Hc. lia.
Qed.

(** *** Reads never outnumber ticks *)

Lemma ticks_grow (s s' : State) (a p : Z) :
  timer s = Some (a, p) -> 0 < p -> steady s s' ->
  ticks_so_far s
  + (if fired (timer s) (clock_ms s) (clock_ms s') then 1 else 0)
  <= ticks_so_far s'.
Proof.
  intros Htm Hp (Ht & Hc & _).
  unfold ticks_so_far. rewrite Ht, Htm. simpl fired.
  destruct (ticks_by_mono a p _ _ Hc) as [Hup _]. specialize (Hup Hp).
  destruct (Z.ltb_spec (ticks_by (a, p) (clock_ms s))
                       (ticks_by (a, p) (clock_ms s'))); lia.
Qed.

Lemma reads_within_ticks_step (a p : Z) (s : State) :
  0 < p ->
  timer s = Some (a, p) /\ reads_and_pending s <= ticks_so_far s ->
  timer (after_iteration cfg env s) = Some (a, p)
  /\ reads_and_pending (after_iteration cfg env s)
     <= ticks_so_far (after_iteration cfg env s).
Proof.
  intros Hp [Htm Hinv]. unfold reads_and_pending in *.
  destruct (measure_pending s) eqn:Epend.
  - pose proof (steady_round cfg env s Epend) as St.
    assert (Htw : timer (work_start s) = Some (a, p)) by exact Htm.
    pose proof (ticks_grow _ _ a p Htw Hp St) as Hg.
    destruct St as (Ht & _ & Hf & _ & _).
    change (ticks_so_far (work_start s)) with (ticks_so_far s) in Hg.
    split; [rewrite Ht; exact Htm|].
    rewrite Hf. cbn [measure_pending work_start set_last_measure_time
                     set_measure_pending orb].
    assert (Hm : measures (trace (after_iteration cfg env s))
                 = S (measures (trace s))).
    { rewrite (trace_after_iteration cfg env s Epend).
      destruct (counts_after_cycle (work_start s)) as (Hc & _).
      rewrite !measures_app, Hc.
      change (trace (work_start s)) with (trace s).
      destruct (cycle_result cfg env (work_start s)); tally. }
    rewrite Hm.
    destruct (fired (timer (work_start s)) (clock_ms (work_start s))
                    (clock_ms (after_iteration cfg env s))); lia.
  - assert (St : steady s (after_iteration cfg env s))
      by (rewrite (idle_round_eq s Epend); steady_chain).
    pose proof (ticks_grow _ _ a p Htm Hp St) as Hg.
    destruct St as (Ht & _ & Hf & _ & _).
    split; [rewrite Ht; exact Htm|].
    rewrite Hf, Epend. cbn [orb].
    rewrite (idle_round_eq s Epend), trace_advance, trace_log, measures_app.
    rewrite (idle_round_eq s Epend) in Hg.
    rewrite clock_ms_advance in *. cbn [clock_ms log] in *.
    change (measures [ESleep 100]) with 0%nat.
    destruct (fired (timer s) (clock_ms s) (clock_ms s + 100)); lia.
Qed.

(** *** Sends and handshakes per round *)

Lemma handshakes_after_publish (payload : string) (a : State) :
  (handshakes (trace (after_publish cfg env payload a))
   <= S (handshakes (trace a)))%nat.
Proof.
  destruct (mqtt_client a) as [c|] eqn:Ec.
  - destruct (publish_on_live_session payload a c Ec) as (_ & -> & _).
    destruct (publish_ok env (calls a)); tally.
  - destruct (publish_without_session payload a Ec) as (_ & -> & _).
    destruct (connect_ok env (calls a));
      [destruct (publish_ok env (S (calls a)))|]; tally.
Qed.

Lemma handshakes_after_cycle (s : State) :
  (handshakes (trace (after_cycle cfg env s))
   <= S (handshakes (trace s)))%nat.
Proof.
  destruct (sensor env (calls s)) as [r|] eqn:Es.
  - destruct (announced_facts s r Es) as (_ & _ & _ & At).
    pose proof (handshakes_after_publish
                  (payload_json cfg (measured env s) r)
                  (announced cfg env s r)) as Hh.
    unfold after_cycle. rewrite Es. cbv zeta.
    rewrite At, handshakes_app in Hh.
    rewrite trace_log, handshakes_app.
    remember (handshakes (trace (after_publish cfg env
                                   (payload_json cfg (measured env s) r)
                                   (announced cfg env s r)))) as x.
    remember (handshakes (trace s)) as y.
    unfold handshakes in Hh |- *. simpl in Hh |- *. lia.
  - destruct (trace_failed_read cfg env s Es) as (-> & _). tally.
Qed.

Lemma counts_after_iteration (s : State) :
  measures (trace (after_iteration cfg env s))
  = (measures (trace s) + if measure_pending s then 1 else 0)%nat
  /\ (sends (trace (after_iteration cfg env s))
      <= sends (trace s) + if measure_pending s then 1 else 0)%nat
  /\ (handshakes (trace (after_iteration cfg env s))
      <= handshakes (trace s) + if measure_pending s then 2 else 0)%nat.
Proof.
  destruct (measure_pending s) eqn:Hp.
  - rewrite (trace_after_iteration cfg env s Hp).
    destruct (counts_after_cycle (work_start s)) as (Hm & _ & Hs).
    pose proof (handshakes_after_cycle (work_start s)) as Hh.
    change (trace (work_start s)) with (trace s) in Hm, Hs, Hh.
    rewrite !measures_app, !sends_app, !handshakes_app, Hm.
    remember (sends (trace (after_cycle cfg env (work_start s)))) as x.
    remember (handshakes (trace (after_cycle cfg env (work_start s)))) as y.
    remember (sends (trace s)) as x0.
    remember (handshakes (trace s)) as y0.
    remember (measures (trace s)) as m0.
    destruct (cycle_result cfg env (work_start s));
      unfold measures, sends, handshakes; simpl; repeat split; lia.
  - rewrite (idle_round_eq s Hp), trace_advance, trace_log.
    repeat split; tally.
Qed.

(** *** A round in which no tick is pending *)

Lemma idle_round (s : State) :
  measure_pending s = false ->
  after_iteration cfg env s = advance 100 (log (ESleep 100) s).
Proof. intros Hp. unfold after_iteration. now rewrite Hp. Qed.

(** *** What the session calls leave in [mqtt_client] *)

Lemma mqtt_client_after_publish (payload : string) (s : State) :
  mqtt_client (after_publish cfg env payload s)
  = if publish_result env s then Some (client_or_new cfg env s) else None.
Proof.
  destruct (publish_result env s) eqn:Hr;
    [|now apply failed_publish_drops_client].
  unfold publish_result, after_publish, client_or_new in *.
  destruct (mqtt_client s) as [c|] eqn:Ec.
  - now rewrite mqtt_client_after_send, Hr.
  - destruct (connect_ok env (calls s)) eqn:Eok; [|discriminate].
    simpl in Hr.
    rewrite mqtt_client_after_send, calls_after_connect, Hr.
    rewrite mqtt_client_after_connect, Eok. unfold client_or_new.
    now rewrite Ec.
Qed.

End Program.

End FirmwareMore.

Import FirmwareMore.

(** X1.  The client id that [make_mqtt_client] gives the MQTT client is the
    unique id of the board in hexadecimal: two characters per byte, each one
    of 0-9 or a-f, and two boards with different unique ids get different
    client ids. *)
Theorem X1_client_id_is_hex_of_unique_id
  (cfg : Config) (env env' : Env) :
  String.length (client_id (make_mqtt_client cfg env))
  = (2 * String.length (unique_id env))%nat
  /\ all_hex (client_id (make_mqtt_client cfg env)) = true
  /\ (client_id (make_mqtt_client cfg env)
      = client_id (make_mqtt_client cfg env') ->
      unique_id env = unique_id env').
Proof.
  simpl client_id.
  split; [apply length_hexlify|]. split; [apply all_hex_hexlify|].
  intros H. apply (f_equal unhexlify) in H.
  rewrite !unhexlify_hexlify in H. now injection H.
Qed.

Lemma X1_client_id_is_hex_of_unique_id_witness :
  client_id (make_mqtt_client example_config calm_world) = "6162"%string
  /\ unique_id calm_world = unique_id deaf_broker.
Proof.
  split; [reflexivity|].
  exact (proj2 (proj2 (X1_client_id_is_hex_of_unique_id
                         example_config calm_world deaf_broker)) eq_refl).
Defined.

(** X2.  The topic is built from the thing name alone, and two
    configurations with different thing names never publish to the same
    topic. *)
Theorem X2_topic_determines_thing_name (cfg cfg' : Config) :
  MQTT_TOPIC cfg = MQTT_TOPIC cfg' -> THING_NAME cfg = THING_NAME cfg'.
Proof.
  unfold MQTT_TOPIC. intros H.
  apply (append_cancel_r _ _ "/telemetry").
  simpl in H. now injection H.
Qed.

Lemma X2_topic_determines_thing_name_witness :
  THING_NAME example_config
  = THING_NAME (mkConfig "other net" "pw" "host" 1883 "" "" "" "T1" 250).
Proof.
  exact (X2_topic_determines_thing_name
           example_config
           (mkConfig "other net" "pw" "host" 1883 "" "" "" "T1" 250)
           eq_refl).
Defined.

(** X3.  [connect_wifi] always returns, and the global [wifi_connected] then
    holds the value it returned.  It has slept a whole number of half
    seconds, at most 32 of them (16 seconds).  It returns [True] only with
    the link up at that moment, and when the link is already up at the call
    it returns [True] at once, having only printed the address.  It never
    touches the MQTT client and never reads the sensor. *)
Theorem X3_connect_wifi_result_and_blocking_bound
  (cfg : Config) (env : Env) (s : State) :
  exists linked s' k,
    connect_wifi cfg env s = Ok linked s'
    /\ wifi_connected s' = linked
    /\ clock_ms s' = clock_ms s + 500 * Z.of_nat k
    /\ (k <= 32)%nat
    /\ (linked = true -> link_up env (clock_ms s') = true)
    /\ (link_up env (clock_ms s) = true ->
        linked = true /\ k = O
        /\ trace s' = (trace s ++ [EPrint "WiFi connected, IP:"])%list)
    /\ mqtt_client s' = mqtt_client s
    /\ measures (trace s') = measures (trace s).
Proof. apply connect_wifi_bound. Qed.

Lemma X3_connect_wifi_result_and_blocking_bound_witness :
  exists s',
    connect_wifi example_config calm_world (initial 0) = Ok true s'
    /\ clock_ms s' = 0
    /\ trace s' = [EPrint "WiFi connected, IP:"].
Proof.
  destruct (X3_connect_wifi_result_and_blocking_bound
              example_config calm_world (initial 0))
    as (linked & s' & k & Hrun & _ & Hc & _ & _ & Hup & _).
  destruct (Hup eq_refl) as (-> & -> & Htr).
  exists s'. split; [exact Hrun|]. split; [exact Hc | exact Htr].
Defined.

(* ------------------------------------------------------------------ *)
(** ** Whole rounds of the loop *)

(** X4.  Steady state: a round that finds a tick pending, the session up,
    the sensor readable and the transport working reads the sensor once,
    sends the reading once on the existing session and goes back to polling.
    It makes no handshake and keeps the client it had. *)
Theorem X4_round_on_live_session_sends_once
  (cfg : Config) (env : Env) (s : State) (c : MQTTClient) (r : Z * Z) :
  measure_pending s = true ->
  mqtt_client s = Some c ->
  sensor env (calls s) = Some r ->
  publish_ok env (S (calls s)) = true ->
  exists s' body,
    loop_iteration cfg env s = Ok tt s'
    /\ body = json_dumps
                (make_payload (THING_NAME cfg)
                   ((clock_ms s + Z.of_N (cost env (calls s))) / 1000)
                   (fst r) (snd r))
    /\ trace s'
       = (trace s ++ [ESensorMeasure true;
                      EPrint ("Publishing: " ++ body);
                      EMqttPublish (MQTT_TOPIC cfg) body true;
                      EPrint "Published OK";
                      ESleep 100])%list
    /\ mqtt_client s' = Some c
    /\ handshakes (trace s') = handshakes (trace s).
Proof.
  intros Hp Hc Hs Hpub.
  destruct (announced_at_work cfg env s r Hs) as (Ac & Ak & Ab & At).
  destruct (trace_round_read_ok cfg env s r Hp Hs) as [Htr Hcl].
  cbv zeta in Htr, Hcl. rewrite Hc in Ac.
  destruct (publish_on_live_session cfg env
              (payload_json cfg (measured env (work_start s)) r)
              (announced cfg env (work_start s) r) c Ac)
    as (Pr & Pt & _ & Pc).
  rewrite Ak, Hpub in Pr, Pt, Pc.
  rewrite Pr in Htr, Hcl. rewrite Pt, At in Htr. rewrite Pc in Hcl.
  rewrite Ab in Htr.
  exists (after_iteration cfg env s). eexists.
  split; [apply loop_iteration_eq|]. split; [reflexivity|].
  rewrite Htr, <- !app_assoc.
  split; [reflexivity|]. split; [exact Hcl|]. count_events.
Qed.

Lemma X4_round_on_live_session_sends_once_witness :
  exists s' body,
    loop_iteration example_config calm_world (online 0) = Ok tt s'
    /\ mqtt_client s' = mqtt_client (online 0)
    /\ trace s'
       = [ESensorMeasure true;
          EPrint ("Publishing: " ++ body);
          EMqttPublish "devices/T1/telemetry" body true;
          EPrint "Published OK";
          ESleep 100].
Proof.
  destruct (X4_round_on_live_session_sends_once
              example_config calm_world (online 0) _ (24, 55)
              eq_refl eq_refl eq_refl eq_refl)
    as (s' & body & Hrun & _ & Htr & Hc & _).
  exists s', body. split; [exact Hrun|]. split; [exact Hc | exact Htr].
Defined.

(** X5.  Recovery within the round: a round that finds a tick pending and
    no session, with the sensor readable, the broker answering and the
    transport working, connects and delivers the reading in that same round.
    There is no backoff sleep, and the round ends with a new client in
    place. *)
Theorem X5_round_without_session_recovers_and_sends
  (cfg : Config) (env : Env) (s : State) (r : Z * Z) :
  measure_pending s = true ->
  mqtt_client s = None ->
  sensor env (calls s) = Some r ->
  connect_ok env (S (calls s)) = true ->
  publish_ok env (S (S (calls s))) = true ->
  exists s' body,
    loop_iteration cfg env s = Ok tt s'
    /\ body = json_dumps
                (make_payload (THING_NAME cfg)
                   ((clock_ms s + Z.of_N (cost env (calls s))) / 1000)
                   (fst r) (snd r))
    /\ trace s'
       = (trace s ++ [ESensorMeasure true;
                      EPrint ("Publishing: " ++ body);
                      EPrint "Connecting to AWS IoT MQTT...";
                      EMqttConnect true;
                      EPrint "MQTT connected";
                      EMqttPublish (MQTT_TOPIC cfg) body true;
                      EPrint "Published OK";
                      ESleep 100])%list
    /\ mqtt_client s' = Some (make_mqtt_client cfg env).
Proof.
  intros Hp Hc Hs Hcon Hpub.
  destruct (announced_at_work cfg env s r Hs) as (Ac & Ak & Ab & At).
  destruct (trace_round_read_ok cfg env s r Hp Hs) as [Htr Hcl].
  cbv zeta in Htr, Hcl. rewrite Hc in Ac.
  destruct (publish_without_session cfg env
              (payload_json cfg (measured env (work_start s)) r)
              (announced cfg env (work_start s) r) Ac)
    as (Pr & Pt & _).
  rewrite Ak, Hcon, Hpub in Pr, Pt. simpl andb in Pr.
  rewrite Pr in Htr, Hcl. rewrite Pt, At in Htr. rewrite Ab in Htr.
  rewrite mqtt_client_after_publish, Pr in Hcl.
  unfold client_or_new in Hcl. rewrite Ac in Hcl.
  exists (after_iteration cfg env s). eexists.
  split; [apply loop_iteration_eq|]. split; [reflexivity|].
  rewrite Htr, <- !app_assoc.
  split; [reflexivity | exact Hcl].
Qed.

Lemma X5_round_without_session_recovers_and_sends_witness :
  exists s',
    loop_iteration example_config calm_world (offline 0) = Ok tt s'
    /\ mqtt_client s' = Some (make_mqtt_client example_config calm_world)
    /\ deliveries (trace s') = 1%nat.
Proof.
  destruct (X5_round_without_session_recovers_and_sends
              example_config calm_world (offline 0) (24, 55)
              eq_refl eq_refl eq_refl eq_refl eq_refl)
    as (s' & body & Hrun & _ & Htr & Hc).
  exists s'. split; [exact Hrun|]. split; [exact Hc|].
  rewrite Htr. reflexivity.
Defined.

(** X6.  A round that finds no session while the broker refuses makes two
    connect attempts: the one [mqtt_publish] makes before sending, and, after
    the five seconds of the backoff, the one of [main].  Nothing is sent, the
    reading of that round is dropped, and the round ends with a client in
    place exactly if the second attempt succeeded. *)
Theorem X6_round_on_refusing_broker_dials_twice
  (cfg : Config) (env : Env) (s : State) (r : Z * Z) :
  measure_pending s = true ->
  mqtt_client s = None ->
  sensor env (calls s) = Some r ->
  connect_ok env (S (calls s)) = false ->
  exists s' body,
    loop_iteration cfg env s = Ok tt s'
    /\ trace s'
       = (trace s ++
          [ESensorMeasure true;
           EPrint ("Publishing: " ++ body);
           EPrint "Connecting to AWS IoT MQTT...";
           EMqttConnect false;
           EPrint "MQTT connection failed:";
           EPrint "Publish failed";
           EPrint "Attempting reconnect in 5s...";
           ESleep 5000;
           EPrint "Connecting to AWS IoT MQTT...";
           EMqttConnect (connect_ok env (S (S (calls s))));
           EPrint (connect_verdict (connect_ok env (S (S (calls s)))));
           ESleep 100])%list
    /\ handshakes (trace s') = S (S (handshakes (trace s)))
    /\ sends (trace s') = sends (trace s)
    /\ mqtt_client s'
       = (if connect_ok env (S (S (calls s)))
          then Some (make_mqtt_client cfg env) else None).
Proof.
  intros Hp Hc Hs Hcon.
  destruct (announced_at_work cfg env s r Hs) as (Ac & Ak & Ab & At).
  destruct (trace_round_read_ok cfg env s r Hp Hs) as [Htr Hcl].
  cbv zeta in Htr, Hcl. rewrite Hc in Ac.
  destruct (publish_without_session cfg env
              (payload_json cfg (measured env (work_start s)) r)
              (announced cfg env (work_start s) r) Ac)
    as (Pr & Pt & Pk).
  rewrite Ak, Hcon in Pr, Pt, Pk. simpl andb in Pr.
  rewrite Pr, Pk in Htr, Hcl. rewrite Pt, At in Htr.
  exists (after_iteration cfg env s). eexists.
  split; [apply loop_iteration_eq|].
  rewrite Htr, <- !app_assoc.
  split; [reflexivity|]. split; [count_events|]. split; [count_events|].
  exact Hcl.
Qed.

Lemma X6_round_on_refusing_broker_dials_twice_witness :
  exists s',
    loop_iteration example_config deaf_broker (offline 0) = Ok tt s'
    /\ handshakes (trace s') = 2%nat
    /\ sends (trace s') = 0%nat
    /\ mqtt_client s' = None.
Proof.
  destruct (X6_round_on_refusing_broker_dials_twice
              example_config deaf_broker (offline 0) (24, 55)
              eq_refl eq_refl eq_refl eq_refl)
    as (s' & body & Hrun & _ & Hh & Hs & Hc).
  exists s'. split; [exact Hrun|]. split; [exact Hh|].
  split; [exact Hs | exact Hc].
Defined.

(** X7.  A round whose send fails on a session that was up: the failed send
    is followed by one disconnect attempt (whose own failure is ignored),
    the five seconds of the backoff and one connect attempt.  The reading is
    not sent again, and the round ends with a newly built client in place
    exactly if that connect attempt succeeded. *)
Theorem X7_round_on_failed_send_disconnects_and_redials
  (cfg : Config) (env : Env) (s : State) (c : MQTTClient) (r : Z * Z) :
  measure_pending s = true ->
  mqtt_client s = Some c ->
  sensor env (calls s) = Some r ->
  publish_ok env (S (calls s)) = false ->
  exists s' body,
    loop_iteration cfg env s = Ok tt s'
    /\ trace s'
       = (trace s ++
          [ESensorMeasure true;
           EPrint ("Publishing: " ++ body);
           EMqttPublish (MQTT_TOPIC cfg) body false;
           EPrint "Publish failed, will try reconnect:";
           EMqttDisconnect (disconnect_ok env (S (S (calls s))));
           EPrint "Publish failed";
           EPrint "Attempting reconnect in 5s...";
           ESleep 5000;
           EPrint "Connecting to AWS IoT MQTT...";
           EMqttConnect (connect_ok env (S (S (S (calls s)))));
           EPrint (connect_verdict (connect_ok env (S (S (S (calls s))))));
           ESleep 100])%list
    /\ sends (trace s') = S (sends (trace s))
    /\ deliveries (trace s') = deliveries (trace s)
    /\ mqtt_client s'
       = (if connect_ok env (S (S (S (calls s))))
          then Some (make_mqtt_client cfg env) else None).
Proof.
  intros Hp Hc Hs Hpub.
  destruct (announced_at_work cfg env s r Hs) as (Ac & Ak & Ab & At).
  destruct (trace_round_read_ok cfg env s r Hp Hs) as [Htr Hcl].
  cbv zeta in Htr, Hcl. rewrite Hc in Ac.
  destruct (publish_on_live_session cfg env
              (payload_json cfg (measured env (work_start s)) r)
              (announced cfg env (work_start s) r) c Ac)
    as (Pr & Pt & Pk & _).
  rewrite Ak, Hpub in Pr, Pt, Pk.
  rewrite Pr, Pk in Htr, Hcl. rewrite Pt, At in Htr.
  exists (after_iteration cfg env s). eexists.
  split; [apply loop_iteration_eq|].
  rewrite Htr, <- !app_assoc.
  split; [reflexivity|]. split; [count_events|]. split; [tally|].
  exact Hcl.
Qed.

Lemma X7_round_on_failed_send_disconnects_and_redials_witness :
  exists s',
    loop_iteration example_config broken_pipe (online 0) = Ok tt s'
    /\ sends (trace s') = 1%nat
    /\ deliveries (trace s') = 0%nat
    /\ mqtt_client s' = Some (make_mqtt_client example_config broken_pipe).
Proof.
  destruct (X7_round_on_failed_send_disconnects_and_redials
              example_config broken_pipe (online 0) _ (24, 55)
              eq_refl eq_refl eq_refl eq_refl)
    as (s' & body & Hrun & _ & Hs & Hd & Hc).
  exists s'. split; [exact Hrun|]. split; [exact Hs|].
  split; [exact Hd | exact Hc].
Defined.

(** X8.  A round that finds no tick pending does nothing but sleep its
    100 ms: no sensor read, no network call, client and time stamp
    untouched.  At its end the flag is set exactly if the timer fired during
    that sleep. *)
Theorem X8_idle_round_only_sleeps
  (cfg : Config) (env : Env) (s : State) :
  measure_pending s = false ->
  exists s',
    loop_iteration cfg env s = Ok tt s'
    /\ trace s' = (trace s ++ [ESleep 100])%list
    /\ clock_ms s' = clock_ms s + 100
    /\ calls s' = calls s
    /\ mqtt_client s' = mqtt_client s
    /\ last_measure_time s' = last_measure_time s
    /\ measure_pending s'
       = fired (timer s) (clock_ms s) (clock_ms s + 100).
Proof.
  intros Hp. exists (after_iteration cfg env s).
  split; [apply loop_iteration_eq|].
  rewrite stamp_after_iteration, (idle_round cfg env s Hp), Hp.
  rewrite trace_advance, clock_ms_advance, calls_advance,
    mqtt_client_advance, measure_pending_advance.
  cbn [trace clock_ms calls mqtt_client measure_pending timer log].
  rewrite Hp. repeat split.
Qed.

Lemma X8_idle_round_only_sleeps_witness :
  exists s',
    loop_iteration example_config calm_world
      (set_measure_pending false (online 0)) = Ok tt s'
    /\ trace s' = [ESleep 100]
    /\ measure_pending s' = false.
Proof.
  destruct (X8_idle_round_only_sleeps
              example_config calm_world
              (set_measure_pending false (online 0)) eq_refl)
    as (s' & Hrun & Htr & _ & _ & _ & _ & Hf).
  exists s'. split; [exact Hrun|]. split; [exact Htr | exact Hf].
Defined.

(** X9.  After [mqtt_connect], and after [mqtt_publish], a client is in
    place exactly if the call returned [True]; it is then the client that
    was in place before the call, or a newly built one if there was none. *)
Theorem X9_session_calls_report_the_client_state
  (cfg : Config) (env : Env) (s : State) :
  (exists ok s',
      mqtt_connect cfg env s = Ok ok s'
      /\ mqtt_client s'
         = if ok then Some (client_or_new cfg env s) else None)
  /\ (forall payload, exists ok s',
        mqtt_publish cfg env payload s = Ok ok s'
        /\ mqtt_client s'
           = if ok then Some (client_or_new cfg env s) else None).
Proof.
  split.
  - exists (connect_ok env (calls s)), (after_connect cfg env s).
    split; [apply mqtt_connect_eq | apply mqtt_client_after_connect].
  - intros payload.
    exists (publish_result env s), (after_publish cfg env payload s).
    split; [apply mqtt_publish_eq | apply mqtt_client_after_publish].
Qed.

(** X10.  Every call of [measure_and_publish] returns, reads the sensor
    exactly once and attempts at most one send; it returns [True] exactly
    when that send was accepted by the transport. *)
Theorem X10_cycle_returns_true_iff_delivered
  (cfg : Config) (env : Env) (s : State) :
  exists published s',
    measure_and_publish cfg env s = Ok published s'
    /\ measures (trace s') = S (measures (trace s))
    /\ deliveries (trace s')
       = (deliveries (trace s) + if published then 1 else 0)%nat
    /\ (sends (trace s') <= S (sends (trace s)))%nat.
Proof.
  exists (cycle_result cfg env s), (after_cycle cfg env s).
  split; [apply measure_and_publish_eq | apply counts_after_cycle].
Qed.

(** X11.  [last_measure_time] after a round is the clock, in whole seconds,
    at the start of the round if a tick was pending (whether or not the
    read and the publish succeeded), and is unchanged otherwise. *)
Theorem X11_round_stamps_last_measure_time
  (cfg : Config) (env : Env) (s : State) :
  exists s',
    loop_iteration cfg env s = Ok tt s'
    /\ last_measure_time s'
       = if measure_pending s then clock_ms s / 1000
         else last_measure_time s.
Proof.
  exists (after_iteration cfg env s).
  split; [apply loop_iteration_eq | apply stamp_after_iteration].
Qed.

(* ------------------------------------------------------------------ *)
(** ** The loop over many rounds, start-up and shutdown *)

(** X12.  The loop never reads the sensor more often than the timer has
    ticked.  If, on entering the loop with the timer armed with a positive
    period, the reads made so far plus one for a pending tick do not exceed
    the periods elapsed, then the same holds whenever the loop is cut or
    left, after any number of rounds, whatever the sensor, the broker and
    the transport do and however long their calls take. *)
Theorem X12_reads_never_outnumber_ticks
  (cfg : Config) (env : Env) (n i : nat) (s : State) (a p : Z) :
  0 < p ->
  timer s = Some (a, p) ->
  reads_and_pending s <= ticks_so_far s ->
  let s' := final_state (main_loop cfg env n i s) in
  timer s' = Some (a, p)
  /\ reads_and_pending s' <= ticks_so_far s'
  /\ Z.of_nat (measures (trace s')) <= ticks_by (a, p) (clock_ms s').
Proof.
  intros Hp Htm Hinv s'.
  assert (H : timer s' = Some (a, p)
              /\ reads_and_pending s' <= ticks_so_far s').
  { subst s'.
    apply (main_loop_invariant cfg env
             (fun x => timer x = Some (a, p)
                       /\ reads_and_pending x <= ticks_so_far x)).
    - intros x Hx. now apply reads_within_ticks_step.
    - split; assumption. }
  destruct H as [Ht Hr]. split; [exact Ht|]. split; [exact Hr|].
  unfold reads_and_pending, ticks_so_far in Hr. rewrite Ht in Hr.
  destruct (measure_pending s'); lia.
Qed.

Lemma X12_reads_never_outnumber_ticks_witness :
  Z.of_nat
    (measures
       (trace (final_state
                 (main_loop example_config dead_sensor 7 0 (online 0)))))
  <= ticks_by (0, 5000)
       (clock_ms (final_state
                    (main_loop example_config dead_sensor 7 0 (online 0)))).
Proof.
  apply (X12_reads_never_outnumber_ticks
           example_config dead_sensor 7 0 (online 0) 0 5000).
  - lia.
  - reflexivity.
  - vm_compute. discriminate.
Defined.

(** X13.  When [main] ends because the user interrupted it, this happened
    at one of the rounds observed; the last things it did were to print
    that it was stopped, to stop the timer and, only if a client was in
    place, to try one disconnect, whose failure is ignored.  [mqtt_client]
    itself is left as it was.  With the timer stopped, time passing can no
    longer set the pending flag. *)
Theorem X13_interrupt_runs_the_shutdown_path
  (cfg : Config) (env : Env) (n : nat) (s0 s' : State) :
  main cfg env n s0 = Ok Stopped s' ->
  (exists j, (j < n)%nat /\ ctrl_c env j = true)
  /\ timer s' = None
  /\ (forall d, measure_pending (advance d s') = measure_pending s')
  /\ exists front tail,
      trace s'
      = (front ++ [EPrint "Stopped by user"; ETimerDeinit] ++ tail)%list
      /\ match mqtt_client s' with
         | Some _ => exists ok, tail = [EMqttDisconnect ok]
         | None => tail = []
         end.
Proof.
  intros Hmain.
  destruct (main_spec cfg env n s0) as (b & s1 & Hwifi & Hcase).
  destruct b.
  2:{ destruct Hcase as (s2 & Hreset & _). congruence. }
  rewrite (main_running_eq cfg env n s0 s1 Hwifi) in Hmain.
  destruct (main_loop_cases cfg env n 0%nat (loop_entry cfg env s1))
    as [[s3 H]|(s3 & j & H & Hj & Hc)]; rewrite H in Hmain;
    [discriminate|].
  injection Hmain as <-.
  split; [exists j; split; [lia | exact Hc]|].
  unfold after_shutdown. cbv zeta. cbn [mqtt_client log].
  destruct (mqtt_client s3) as [c|] eqn:Ec.
  - split; [proj; reflexivity|].
    split; [intros d; proj; now rewrite orb_false_r|].
    exists (trace s3), [EMqttDisconnect (disconnect_ok env (calls s3))].
    split; [proj; rewrite <- !app_assoc; reflexivity|].
    proj. rewrite Ec. eexists. reflexivity.
  - split; [reflexivity|].
    split; [intros d; proj; now rewrite orb_false_r|].
    exists (trace s3), [].
    split; [proj; rewrite <- !app_assoc; reflexivity|].
    proj. now rewrite Ec.
Qed.

Lemma X13_interrupt_runs_the_shutdown_path_witness :
  exists s',
    main example_config
         (mkEnv "ab" (fun _ => true) (fun _ => Some (24, 55)) (fun _ => true)
                (fun _ => true) (fun _ => false) (fun _ => 0%N)
                (fun i => Nat.eqb i 2))
         5 (initial 0) = Ok Stopped s'
    /\ timer s' = None
    /\ mqtt_client s' <> None.
Proof.
  eexists. split; [vm_compute; reflexivity|].
  split.
  - eapply (X13_interrupt_runs_the_shutdown_path
              example_config
              (mkEnv "ab" (fun _ => true) (fun _ => Some (24, 55))
                     (fun _ => true) (fun _ => true) (fun _ => false)
                     (fun _ => 0%N) (fun i => Nat.eqb i 2))
              5 (initial 0)).
    vm_compute. reflexivity.
  - discriminate.
Defined.

(** X14.  Start-up with the link already up: [main] prints the address, arms
    the timer with the configured period at the current time, announces it
    and makes exactly one connect attempt; it then enters its loop whether
    or not that attempt succeeded.  It never resets, and everything it does
    later comes after these events. *)
Theorem X14_startup_arms_timer_and_dials_once
  (cfg : Config) (env : Env) (s0 : State) :
  link_up env (clock_ms s0) = true ->
  exists entry,
    main cfg env 0 s0 = Ok StillRunning entry
    /\ trace entry
       = (trace s0 ++
          [EPrint "WiFi connected, IP:";
           ETimerInit (MEASURE_INTERVAL_MS cfg);
           EPrint ("Timer started, measuring every "
                   ++ string_of_Z (MEASURE_INTERVAL_MS cfg) ++ " ms");
           EPrint "Connecting to AWS IoT MQTT...";
           EMqttConnect (connect_ok env (calls s0));
           EPrint (connect_verdict (connect_ok env (calls s0)))])%list
    /\ timer entry = Some (clock_ms s0, MEASURE_INTERVAL_MS cfg)
    /\ wifi_connected entry = true
    /\ mqtt_client entry
       = (if connect_ok env (calls s0)
          then Some (client_or_new cfg env s0) else None)
    /\ forall n, exists outcome s' tail,
        main cfg env n s0 = Ok outcome s'
        /\ trace s' = (trace entry ++ tail)%list.
Proof.
  intros Hup.
  pose proof (connect_wifi_up_eq cfg env s0 Hup) as Hwifi.
  set (s1 := log (EPrint "WiFi connected, IP:")
               (set_wifi_connected true s0)) in *.
  exists (loop_entry cfg env s1).
  split; [rewrite (main_running_eq cfg env 0 s0 s1 Hwifi); reflexivity|].
  unfold loop_entry.
  split.
  { rewrite trace_after_connect. subst s1.
    cbn [trace calls log set_timer set_wifi_connected].
    rewrite <- !app_assoc. reflexivity. }
  split.
  { destruct (steady_after_connect cfg env
                (log (EPrint ("Timer started, measuring every "
                              ++ string_of_Z (MEASURE_INTERVAL_MS cfg)
                              ++ " ms"))
                   (log (ETimerInit (MEASURE_INTERVAL_MS cfg))
                      (set_timer
                         (Some (clock_ms s1, MEASURE_INTERVAL_MS cfg)) s1))))
      as (Ht & _). rewrite Ht. reflexivity. }
  split.
  { unfold after_connect, dialled.
    destruct (connect_ok env _); cbn; rewrite wifi_connected_advance;
      reflexivity. }
  split.
  { rewrite mqtt_client_after_connect. reflexivity. }
  intros n. fold (loop_entry cfg env s1).
  rewrite (main_running_eq cfg env n s0 s1 Hwifi).
  pose proof (main_loop_invariant cfg env
                (fun x => exists tail,
                     trace x = (trace (loop_entry cfg env s1) ++ tail)%list))
    as Hinv.
  assert (Hgrow : exists tail,
             trace (final_state
                      (main_loop cfg env n 0%nat (loop_entry cfg env s1)))
             = (trace (loop_entry cfg env s1) ++ tail)%list).
  { apply Hinv.
    - intros x [tl Hx].
      destruct (trace_grows_iteration cfg env x) as [tl' Hx'].
      exists (tl ++ tl')%list. now rewrite Hx', Hx, app_assoc.
    - exists []. now rewrite app_nil_r. }
  destruct Hgrow as [tl Htl].
  destruct (main_loop_cases cfg env n 0%nat (loop_entry cfg env s1))
    as [[s3 H]|(s3 & j & H & _ & _)]; rewrite H in *; simpl in Htl.
  - exists StillRunning, s3, tl. split; [reflexivity | exact Htl].
  - exists Stopped,
      (after_shutdown env (log (EPrint "Stopped by user") s3)).
    assert (Hsd : exists tail,
               trace (after_shutdown env (log (EPrint "Stopped by user") s3))
               = (trace s3 ++ tail)%list).
    { unfold after_shutdown. cbv zeta. cbn [mqtt_client log].
      destruct (mqtt_client s3); eexists; proj;
        rewrite <- !app_assoc; reflexivity. }
    destruct Hsd as [tl' Hsd]. exists (tl ++ tl')%list.
    split; [reflexivity|]. now rewrite Hsd, Htl, app_assoc.
Qed.

Lemma X14_startup_arms_timer_and_dials_once_witness :
  exists entry,
    main example_config deaf_broker 0 (initial 7) = Ok StillRunning entry
    /\ timer entry = Some (7, 5000)
    /\ mqtt_client entry = None.
Proof.
  destruct (X14_startup_arms_timer_and_dials_once
              example_config deaf_broker (initial 7) eq_refl)
    as (entry & Hrun & _ & Ht & _ & Hc & _).
  exists entry. split; [exact Hrun|]. split; [exact Ht | exact Hc].
Defined.

(** X15.  The loop does not spin: every round takes at least the 100 ms of
    its poll sleep, so [n] rounds that were not interrupted take at least
    [100 * n] milliseconds. *)
Theorem X15_rounds_take_at_least_the_poll_sleep
  (cfg : Config) (env : Env) (n i : nat) (s s' : State) :
  main_loop cfg env n i s = Ok tt s' ->
  clock_ms s + 100 * Z.of_nat n <= clock_ms s'.
Proof.
  revert i s. induction n as [|n IH]; intros i s Hrun.
  - injection Hrun as <-. simpl. lia.
  - rewrite main_loop_S in Hrun.
    destruct (ctrl_c env i); [discriminate|].
    apply IH in Hrun.
    pose proof (clock_grows_iteration cfg env s). lia.
Qed.

Lemma X15_rounds_take_at_least_the_poll_sleep_witness :
  5000 + 100 * 3
  <= clock_ms (final_state
                 (main_loop example_config calm_world 3 0 (online 0))).
Proof.
  apply (X15_rounds_take_at_least_the_poll_sleep
           example_config calm_world 3 0 (online 0)).
  vm_compute. reflexivity.
Defined.

(** X16.  Whatever happens, over any number of rounds the loop makes at
    most one send attempt per sensor read and at most two connect attempts
    per sensor read: counted from any state on, the sends never exceed the
    reads, and the handshakes never exceed twice the reads. *)
Theorem X16_sends_and_handshakes_bounded_by_reads
  (cfg : Config) (env : Env) (n i : nat) (s : State) :
  let s' := final_state (main_loop cfg env n i s) in
  (measures (trace s) <= measures (trace s'))%nat
  /\ (sends (trace s') - sends (trace s)
      <= measures (trace s') - measures (trace s))%nat
  /\ (handshakes (trace s') - handshakes (trace s)
      <= 2 * (measures (trace s') - measures (trace s)))%nat.
Proof.
  intros s'. subst s'.
  apply (main_loop_invariant cfg env
           (fun x =>
              (measures (trace s) <= measures (trace x))%nat
              /\ (sends (trace x) - sends (trace s)
                  <= measures (trace x) - measures (trace s))%nat
              /\ (handshakes (trace x) - handshakes (trace s)
                  <= 2 * (measures (trace x) - measures (trace s)))%nat)).
  - intros x (Hm & Hs & Hh).
    destruct (counts_after_iteration cfg env x) as (Em & Es & Eh).
    rewrite Em. destruct (measure_pending x); repeat split; lia.
  - repeat split; lia.
Qed.
